(** * RED co-flow model: activity correlation, exergy, transport and outputs

    A shallow embedding of the Python package [model_mechanics]
    ([TCPC.py], [exergy_TCPC.py], [coFlow_NaCl_outputs.py],
    [model_class.py]) and the properties of it that the specification
    states.

    Conventions of the embedding.

    - A Python or numpy float is a real number: [+ - * /], [np.log] and
      [np.exp] are the operations of [R].  Rounding is not modelled.
      Where IEEE arithmetic leaves the reals (a zero denominator, the
      logarithm of a non-positive number, a negative base under a
      fractional power) the statements below carry the hypotheses that
      keep the computation inside the reals; the one place where the
      result of such an operation is itself the subject, the two
      quotients of [efficiencies], uses [np_div], which returns the
      IEEE value.
    - A numpy array of shape (n,) is a [list R]; element-wise binary
      operations follow numpy's broadcasting for that shape.
    - A Python exception is a value [Raise e] of [result]; attribute
      slots of the [CoFlow] object that [__init__] may leave unset are
      [option] fields, and reading an unset one raises [AttributeError].
    - [scipy.integrate.odeint] and [scipy.integrate.simps] are library
      routines: they are the two methods of the class [Scipy], and what
      the model relies on from [odeint] is stated in [ScipyLaws]. *)

From Stdlib Require Import String Reals Lra Lia ZArith List Bool.
From Stdlib Require Import FunctionalExtensionality.
Import ListNotations.

Local Open Scope R_scope.

(** ** Python values and exceptions *)

Inductive exn : Set :=
| ZeroDivisionError
| AttributeError
| ValueError
| IndexError.

Inductive result (A : Type) : Type :=
| Ok (v : A)
| Raise (e : exn).

Arguments Ok {A} v.
Arguments Raise {A} e.

Definition bind {A B : Type} (m : result A) (k : A -> result B) : result B :=
  match m with
  | Ok v => k v
  | Raise e => Raise e
  end.

Declare Scope py_scope.
Delimit Scope py_scope with py.
Notation "x <- m ;; k" := (bind m (fun x => k))
  (at level 61, m at next level, right associativity) : py_scope.
Notation "' pat <- m ;; k" := (bind m (fun x => match x with pat => k end))
  (at level 61, pat pattern, m at next level, right associativity) : py_scope.
Local Open Scope py_scope.

(** [a / b] on Python floats: a zero divisor raises. *)
Definition py_truediv (a b : R) : result R :=
  if Req_dec_T b 0 then Raise ZeroDivisionError else Ok (a / b).

(** [x ** y] on floats, for a base [x >= 0]: [exp (y * ln x)] for a
    positive base, [0 ** 0 = 1] and [0 ** y = 0] for [y > 0].  A negative
    base, or a zero base under a negative exponent, has no real value
    (IEEE: nan, inf); the correlation is only used with [x >= 0] and
    positive exponents. *)
Definition py_pow (x y : R) : R :=
  if Rlt_dec 0 x then Rpower x y
  else if Req_dec_T y 0 then 1
  else 0.

(** The value of a numpy division whose divisor may be zero. *)
Inductive npfloat : Set :=
| Fin (r : R)
| PInf
| NInf
| NaN.

(** [a / b] on [np.float64]: no exception; [0/0] is nan and [a/0] is an
    infinity with the sign of [a] (the zero divisors that occur are
    differences [v - v], that is [+0.0]).  A divisor that is zero only
    in exact arithmetic may be a rounding residue in binary64; the
    statements that reach the zero branch do so through [v - v]. *)
Definition np_div (a b : R) : npfloat :=
  if Req_dec_T b 0 then
    if Req_dec_T a 0 then NaN
    else if Rlt_dec 0 a then PInf else NInf
  else Fin (a / b).

Definition is_finite (v : npfloat) : bool :=
  match v with
  | Fin _ => true
  | _ => false
  end.

(** ** numpy arrays of shape (n,) *)

Fixpoint map2 {A B C : Type} (f : A -> B -> C) (u : list A) (v : list B) : list C :=
  match u, v with
  | a :: u', b :: v' => f a b :: map2 f u' v'
  | _, _ => []
  end.

(** Element-wise [f] with broadcasting: equal lengths, or one operand
    of length one; any other pair of shapes raises. *)
Definition np_binop (f : R -> R -> R) (u v : list R) : result (list R) :=
  if Nat.eqb (length u) (length v) then Ok (map2 f u v)
  else match u, v with
       | [a], _ => Ok (map (f a) v)
       | _, [b] => Ok (map (fun a => f a b) u)
       | _, _ => Raise ValueError
       end.

(** [u[i]] for [i >= 0]. *)
Definition getitem {A : Type} (u : list A) (i : nat) : result A :=
  match nth_error u i with
  | Some v => Ok v
  | None => Raise IndexError
  end.

(** [u[-1]]. *)
Definition getlast {A : Type} (u : list A) : result A :=
  match u with
  | [] => Raise IndexError
  | a :: u' => Ok (last u' a)
  end.

(** [u[-1] = v] on a non-empty array. *)
Definition setlast {A : Type} (u : list A) (v : A) : list A :=
  removelast u ++ [v].

(** [np.linspace(start, stop, num)] with the default [endpoint=True]. *)
Definition linspace (start stop : R) (num : Z) : result (list R) :=
  if (num <? 0)%Z then Raise ValueError
  else
    let div := (num - 1)%Z in
    let delta := stop - start in
    let y := map INR (seq 0 (Z.to_nat num)) in
    let y :=
      if (0 <? div)%Z then
        let step := delta / IZR div in
        if Req_dec_T step 0
        then map (fun v => v * delta) (map (fun v => v / IZR div) y)
        else map (fun v => v * step) y
      else map (fun v => v * delta) y in
    let y := map (fun v => v + start) y in
    Ok (if (1 <? num)%Z then setlast y stop else y).

(** ** TCPC.py *)

Module TCPC.

Record Salt : Set := {
  zplus : R;
  zmin : R;
  vplus : R;
  vmin : R;
  b : R;
  S : R;
  n : R
}.

Definition Aphi : R := 0.392.
Definition T : R := 298.15.

(** [Salt.TCPC]: the mean activity coefficient. *)
Definition TCPC (self : Salt) (I : R) : R :=
  let fgamma :=
    - Aphi * (py_pow I 0.5 / (1 + b self * py_pow I 0.5)
              + (2 / b self) * ln (1 + b self * py_pow I 0.5)) in
  let gammaSV := (S self / T) * py_pow I (2 * n self) / (vplus self + vmin self) in
  exp ((zplus self * zmin self) * fgamma + gammaSV).

(** [Salt.osmo]: the osmotic coefficient. *)
Definition osmo (self : Salt) (I : R) : R :=
  1 - (zplus self * zmin self)
      * Aphi * (py_pow I 0.5 / (1 + b self * py_pow I 0.5))
  + (S self / (T * (vplus self + vmin self)))
    * (2 * n self / (2 * n self + 1)) * py_pow I (2 * n self).

End TCPC.

(** ** exergy_TCPC.py *)

Module exergy_TCPC.

Definition NaCl : TCPC.Salt :=
  {| TCPC.zplus := 1; TCPC.zmin := 1; TCPC.vplus := 1; TCPC.vmin := 1;
     TCPC.b := 3.0210; TCPC.S := 36.1573; TCPC.n := 0.8998 |}.

(** Molar flows [nNa, nCl, nH2O, nTot] of a NaCl solution. *)
Definition moles (C f : R) : list R :=
  let MW_NaCl := 58.44 / 1000 in
  let MW_H2O := 18.01 / 1000 in
  let dens := (0.0375 * (C / 1000) + 0.9987) * 1000 in
  let nNa := C * f in
  let nCl := C * f in
  let nH2O := f * (dens - C * MW_NaCl) / MW_H2O in
  let nTot := nNa + nCl + nH2O in
  [nNa; nCl; nH2O; nTot].

(** Mole fractions [xNa, xCl, xH2O] from a list [nNa, nCl, nH2O, nTot].
    The quotients are real divisions: a total [n[3] = 0], where the code
    raises [ZeroDivisionError] on Python floats and yields nan or inf on
    numpy floats, is outside what the statements below cover. *)
Definition fractions (n : list R) : result (list R) :=
  n0 <- getitem n 0 ;; n3 <- getitem n 3 ;;
  let xNa := n0 / n3 in
  n1 <- getitem n 1 ;;
  let xCl := n1 / n3 in
  n2 <- getitem n 2 ;;
  let xH2O := n2 / n3 in
  Ok [xNa; xCl; xH2O].

Definition activity (C : R) : R := TCPC.TCPC NaCl (C / 1000).

(** The list [n, x, y, entropy] that [entropy] returns. *)
Record entropy_out : Type := {
  out_n : list R;
  out_x : list R;
  out_y : R;
  out_entropy : R
}.

Definition entropy (C f : R) : result entropy_out :=
  let n := moles C f in
  x <- fractions n ;;
  let y := activity C in
  let R := 8.314 in
  n3 <- getitem n 3 ;;
  x0 <- getitem x 0 ;; x1 <- getitem x 1 ;; x2 <- getitem x 2 ;;
  let entropy :=
    - R * n3 * (x0 * ln (y * x0) + x1 * ln (y * x1) + x2 * ln x2) in
  Ok {| out_n := n; out_x := x; out_y := y; out_entropy := entropy |}.

(** [exergy] returns [[S, exergy]]. *)
Definition exergy (T cSW cRW cMix fSW fRW fMix : R) : result (list R * R) :=
  SW <- entropy cSW fSW ;;
  RW <- entropy cRW fRW ;;
  Mix <- entropy cMix fMix ;;
  let S := [out_entropy SW; out_entropy RW; out_entropy Mix] in
  let exergy := T * (out_entropy Mix - out_entropy SW - out_entropy RW) in
  Ok (S, exergy).

End exergy_TCPC.

(** ** scipy.integrate *)

(** The two library routines the package calls.  [odeint func y0 t]
    integrates [dy/dt = func y t] from [y0] and returns one row per
    element of [t]; the state has two components, [[cSW, cRW]].
    [simps y x] is the composite Simpson rule for samples [y] at [x],
    meant for non-empty [y] and [x] of one length (the library rejects
    other shapes). *)
Class Scipy : Type := {
  odeint : (R * R -> R -> result (R * R)) -> R * R -> list R -> result (list (R * R));
  simps : list R -> list R -> R
}.

(** ** coFlow_NaCl_outputs.py *)

Module coFlow_NaCl_outputs.

Import exergy_TCPC.

Section Outputs.
Context {scipy : Scipy}.

(** Returns [(Power_tot, Pd_avg)]. *)
Definition power_density (Uload : R) (E Rcell : list R) (W L : R) (x : list R)
  : result (R * R) :=
  let U := Uload in
  Pd <- np_binop Rdiv (map (fun e => e * U - U ^ 2) E) Rcell ;;
  let Pd_avg := simps Pd x / (2 * L) in
  let Power_tot := Pd_avg * (2 * W * L) in
  Ok (Power_tot, Pd_avg).

(** Returns [(eta_energy, eta_thermo)]. *)
Definition efficiencies (cRW cSW : list R) (fRW fSW Temp Power : R)
  : result (npfloat * npfloat) :=
  cSWout <- getlast cSW ;;
  cRWout <- getlast cRW ;;
  let fMix := fRW + fSW in
  s <- np_binop Rplus (map (fun c => fSW * c) cSW) (map (fun c => fRW * c) cRW) ;;
  let cMix := map (fun v => v / fMix) s in
  let cMixout := (fSW * cSWout + fRW * cRWout) / fMix in
  cSW0 <- getitem cSW 0 ;; cRW0 <- getitem cRW 0 ;; cMix0 <- getitem cMix 0 ;;
  G_in <- exergy Temp cSW0 cRW0 cMix0 fSW fRW fMix ;;
  let dG_in := snd G_in in
  G_out <- exergy Temp cSWout cRWout cMixout fSW fRW fMix ;;
  let dG_out := snd G_out in
  let eta_energy := np_div (100 * Power) dG_in in
  let eta_thermo := np_div (100 * Power) (dG_in - dG_out) in
  Ok (eta_energy, eta_thermo).

Definition current (J : list R) (W : R) (x : list R) : R :=
  W * simps J x.

Definition E_average (E : list R) (L : R) (x : list R) : R :=
  simps E x / L.

End Outputs.

End coFlow_NaCl_outputs.

(** ** model_class.py *)

Module model_class.

Import coFlow_NaCl_outputs.

(** The attributes of a [CoFlow] object.  The seven membrane attributes
    exist only once one of the two branches of [__init__] has assigned
    them; the result attributes start as [None]. *)
Record CoFlow : Type := {
  NaCl : TCPC.Salt;
  Rgas : R;                      (* self.R *)
  Temp : R;
  Fad : R;
  Vw : R;
  obstr : R;
  Lambda : R;
  tRW : R;
  tSW : R;
  W : R;
  L : R;
  d : R;
  fSW : R;
  fRW : R;
  Raem : option R;
  Rcem : option R;
  a : option R;
  Dnacl : option R;
  Dw : option R;
  Hm : option R;
  Keosm : option R;
  Uload : R;
  cSW0 : R;
  cRW0 : R;
  Qzero : R * R;
  x : list R;
  solved : bool;
  cRW : option (list R);
  cSW : option (list R);
  E : option (list R);
  Rcell : option (list R);
  J : option (list R);
  power : option R;
  pd_avg : option R;
  eta_energy : option npfloat;
  eta_thermo : option npfloat
}.

(** Reading an attribute that was never assigned. *)
Definition getattr {A : Type} (slot : option A) : result A :=
  match slot with
  | Some v => Ok v
  | None => Raise AttributeError
  end.

(** The membrane attributes as the two [if] statements leave them. *)
Record MembraneAttrs : Set := {
  m_Raem : option R;
  m_Rcem : option R;
  m_a : option R;
  m_Dnacl : option R;
  m_Dw : option R;
  m_Hm : option R;
  m_Keosm : option R
}.

Definition no_membrane : MembraneAttrs :=
  {| m_Raem := None; m_Rcem := None; m_a := None; m_Dnacl := None;
     m_Dw := None; m_Hm := None; m_Keosm := None |}.

Definition ideal_membrane : MembraneAttrs :=
  {| m_Raem := Some 1.0E-4; m_Rcem := Some 1.0E-4; m_a := Some 0.90;
     m_Dnacl := Some 0; m_Dw := Some 0; m_Hm := Some 80E-6;
     m_Keosm := Some 0 |}.

Definition fujifilm_membrane : MembraneAttrs :=
  {| m_Raem := Some 1.77E-4; m_Rcem := Some 2.69E-4; m_a := Some 0.946;
     m_Dnacl := Some 1.5E-12; m_Dw := Some 4.5E-9; m_Hm := Some 145E-6;
     m_Keosm := Some 6 |}.

Definition select_membranes (membranes : string) : MembraneAttrs :=
  let m := no_membrane in
  let m := if String.eqb membranes "Ideal CEM/AEM" then ideal_membrane else m in
  let m := if String.eqb membranes "Fujifilm CEM/AEM type 10"
           then fujifilm_membrane else m in
  m.

(** The object as the assignments of [__init__] leave it, given the two
    flow rates, the membrane attributes and the domain. *)
Definition fresh_object (tRW tSW W L d : R) (m : MembraneAttrs)
    (Uload cRW0 cSW0 fSW fRW : R) (x : list R) : CoFlow :=
  {| NaCl := exergy_TCPC.NaCl;
     Rgas := 8.3143; Temp := 298.0; Fad := 96485.0; Vw := 18E-6;
     obstr := 1.65; Lambda := 0.01287;
     tRW := tRW; tSW := tSW;
     W := W; L := L; d := d;
     fSW := fSW; fRW := fRW;
     Raem := m_Raem m; Rcem := m_Rcem m; a := m_a m;
     Dnacl := m_Dnacl m; Dw := m_Dw m; Hm := m_Hm m; Keosm := m_Keosm m;
     Uload := Uload;
     cSW0 := cSW0; cRW0 := cRW0; Qzero := (cSW0, cRW0);
     x := x;
     solved := false;
     cRW := None; cSW := None; E := None; Rcell := None; J := None;
     power := None; pd_avg := None;
     eta_energy := None; eta_thermo := None |}.

Definition __init__ (tRW tSW W L d : R) (membranes : string)
    (Uload cRW0 cSW0 : R) (intervals : Z) : result CoFlow :=
  fSW <- py_truediv (L * W * d) tSW ;;
  fRW <- py_truediv (L * W * d) tRW ;;
  let m := select_membranes membranes in
  x <- linspace 0 L intervals ;;
  Ok (fresh_object tRW tSW W L d m Uload cRW0 cSW0 fSW fRW x).

(** On one concentration; on an array the method applies element-wise. *)
Definition water_ohmic_drop (self : CoFlow) (C : R) : R :=
  obstr self * d self / (Lambda self * C).

(** [NaCl] here is the module-level salt of [exergy_TCPC], which the
    star imports bring into [model_class]. *)
Definition activity (self : CoFlow) (C : R) : R :=
  C * TCPC.TCPC exergy_TCPC.NaCl (C / 1000).

(** The state [Q] is the pair [[cSW, cRW]].  The arithmetic is real:
    statements about the derivatives keep both concentrations positive
    (at a zero or negative concentration the code divides by zero or
    leaves the domain of the logarithm and of the power). *)
Definition dQdx (self : CoFlow) (Q : R * R) (x : R) : result (R * R) :=
  let '(cSW, cRW) := Q in
  let rRW := water_ohmic_drop self cRW in
  let rSW := water_ohmic_drop self cSW in
  let aSW := activity self cSW in
  let aRW := activity self cRW in
  a <- getattr (a self) ;;
  let preF := a * 2 * Rgas self * Temp self / Fad self in
  let E := preF * ln (aSW / aRW) in
  Raem <- getattr (Raem self) ;;
  Rcem <- getattr (Rcem self) ;;
  let Rcell := Raem + Rcem + rRW + rSW in
  let U := Uload self in
  let J := (E - U) / Rcell in
  Dnacl <- getattr (Dnacl self) ;;
  Hm <- getattr (Hm self) ;;
  let Tnacl := J / Fad self + (cSW - cRW) * 2 * Dnacl / Hm in
  Dw <- getattr (Dw self) ;;
  Keosm <- getattr (Keosm self) ;;
  let Tw := - (cSW - cRW) * 2 * Dw * Vw self / Hm
            + Keosm * Vw self * J / Fad self in
  let dcSWdx := - W self * Tnacl / fSW self + W self * cSW * Tw / fSW self in
  let dcRWdx := W self * Tnacl / fRW self - W self * cRW * Tw / fRW self in
  Ok (dcSWdx, dcRWdx).

(** The object after the assignments of [solve_system]. *)
Definition with_solution (self : CoFlow) (cRW' cSW' E' Rcell' J' : list R)
    (power' pd_avg' : R) (eta_energy' eta_thermo' : npfloat) : CoFlow :=
  {| NaCl := NaCl self;
     Rgas := Rgas self; Temp := Temp self; Fad := Fad self; Vw := Vw self;
     obstr := obstr self; Lambda := Lambda self;
     tRW := tRW self; tSW := tSW self;
     W := W self; L := L self; d := d self;
     fSW := fSW self; fRW := fRW self;
     Raem := Raem self; Rcem := Rcem self; a := a self;
     Dnacl := Dnacl self; Dw := Dw self; Hm := Hm self; Keosm := Keosm self;
     Uload := Uload self;
     cSW0 := cSW0 self; cRW0 := cRW0 self; Qzero := Qzero self;
     x := x self;
     solved := true;
     cRW := Some cRW'; cSW := Some cSW'; E := Some E'; Rcell := Some Rcell';
     J := Some J';
     power := Some power'; pd_avg := Some pd_avg';
     eta_energy := Some eta_energy'; eta_thermo := Some eta_thermo' |}.

Section Solve.
Context {scipy : Scipy}.

(** [Raise e] is the exception leaving [solve_system]; the attributes
    assigned before it are not part of the value. *)
Definition solve_system (self : CoFlow) : result CoFlow :=
  solution <- odeint (dQdx self) (Qzero self) (x self) ;;
  let cRW := map snd solution in
  let cSW := map fst solution in
  let aRW := map (activity self) cRW in
  let aSW := map (activity self) cSW in
  a <- getattr (a self) ;;
  let preF := a * 2 * Rgas self * Temp self / Fad self in
  q <- np_binop Rdiv aSW aRW ;;
  let E := map (fun v => preF * ln v) q in
  let rRW := map (water_ohmic_drop self) cRW in
  let rSW := map (water_ohmic_drop self) cSW in
  Raem <- getattr (Raem self) ;;
  Rcem <- getattr (Rcem self) ;;
  Rcell <- np_binop Rplus (map (fun r => Raem + Rcem + r) rRW) rSW ;;
  J <- np_binop Rdiv (map (fun e => e - Uload self) E) Rcell ;;
  P <- power_density (Uload self) E Rcell (W self) (L self) (x self) ;;
  let power := fst P in
  let pd_avg := snd P in
  eta <- efficiencies cRW cSW (fRW self) (fSW self) (Temp self) power ;;
  Ok (with_solution self cRW cSW E Rcell J power pd_avg (fst eta) (snd eta)).

End Solve.

End model_class.

(** ** What the model relies on from [odeint]

    With a right-hand side that never raises, [odeint] returns one row
    per requested point and the first row is the initial condition (the
    documented shape of its result; non-convergence is a warning, not an
    exception).  An exception of the first evaluation of the right-hand
    side propagates.  A state at which the right-hand side vanishes for
    every [t] is reproduced at every point. *)
Class ScipyLaws (scipy : Scipy) : Prop := {
  odeint_rows :
    forall func y0 t0 ts,
      (forall y t, exists dy, func y t = Ok dy) ->
      exists rows, odeint func y0 (t0 :: ts) = Ok (y0 :: rows)
                   /\ length rows = length ts;
  odeint_raise :
    forall func y0 t0 ts e,
      func y0 t0 = Raise e -> odeint func y0 (t0 :: ts) = Raise e;
  odeint_equilibrium :
    forall func y0 t0 ts,
      (forall t, func y0 t = Ok (0, 0)) ->
      odeint func y0 (t0 :: ts) = Ok (repeat y0 (Datatypes.S (length ts)))
}.

(** ** Reference integrators

    An explicit Euler scheme on the requested points and the composite
    Simpson rule on an irregular grid (for an even number of samples, the
    mean of the two rules that treat the first and the last interval by
    the trapezoid rule).  They show that [ScipyLaws] has a model. *)

Fixpoint euler_rows (func : R * R -> R -> result (R * R)) (y : R * R) (t0 : R)
    (ts : list R) : result (list (R * R)) :=
  match ts with
  | [] => Ok []
  | t1 :: ts' =>
      dy <- func y t0 ;;
      let y1 := (fst y + (t1 - t0) * fst dy, snd y + (t1 - t0) * snd dy) in
      rows <- euler_rows func y1 t1 ts' ;;
      Ok (y1 :: rows)
  end.

Definition euler_odeint (func : R * R -> R -> result (R * R)) (y0 : R * R)
    (t : list R) : result (list (R * R)) :=
  match t with
  | [] => Raise ValueError
  | t0 :: ts =>
      _ <- func y0 t0 ;;
      rows <- euler_rows func y0 t0 ts ;;
      Ok (y0 :: rows)
  end.

Fixpoint basic_simps (y x : list R) : R :=
  match y, x with
  | y0 :: y1 :: ((y2 :: _) as y'), x0 :: x1 :: ((x2 :: _) as x') =>
      let h0 := x1 - x0 in
      let h1 := x2 - x1 in
      let hsum := h0 + h1 in
      let hprod := h0 * h1 in
      let h0divh1 := h0 / h1 in
      hsum / 6 * (y0 * (2 - 1 / h0divh1) + y1 * hsum * hsum / hprod
                  + y2 * (2 - h0divh1))
      + basic_simps y' x'
  | _, _ => 0
  end.

Definition simpson (y x : list R) : R :=
  if Nat.even (length y) then
    match y, x with
    | y0 :: y1 :: _, x0 :: x1 :: _ =>
        let val_first :=
          0.5 * (last x 0 - last (removelast x) 0)
          * (last y 0 + last (removelast y) 0) in
        let res_first := basic_simps (removelast y) (removelast x) in
        let val_last := 0.5 * (x1 - x0) * (y1 + y0) in
        let res_last := basic_simps (tl y) (tl x) in
        (res_first + res_last) / 2 + (val_first + val_last) / 2
    | _, _ => 0
    end
  else basic_simps y x.

Definition reference_scipy : Scipy :=
  {| odeint := euler_odeint; simps := simpson |}.

(** ** Predicates used in the statements *)

(** The two labels that [__init__] recognises. *)
Definition known_membranes (membranes : string) : Prop :=
  membranes = "Ideal CEM/AEM"%string
  \/ membranes = "Fujifilm CEM/AEM type 10"%string.

(** A configuration as the data model describes it: positive times and
    geometry, a recognised membrane label, at least two domain points. *)
Definition valid_configuration (tRW tSW W L d : R) (membranes : string)
    (intervals : Z) : Prop :=
  0 < tRW /\ 0 < tSW /\ 0 < W /\ 0 < L /\ 0 < d
  /\ known_membranes membranes /\ (2 <= intervals)%Z.

(** Salt parameters inside the domain of the correlation. *)
Definition valid_salt (s : TCPC.Salt) : Prop :=
  0 < TCPC.b s /\ 0 < TCPC.n s /\ 0 < TCPC.vplus s + TCPC.vmin s.

(** The entropy rate component of what [entropy] returns. *)
Definition entropy_rate (C f : R) : R :=
  match exergy_TCPC.entropy C f with
  | Ok o => exergy_TCPC.out_entropy o
  | Raise _ => 0
  end.

(** Moles of all species per unit of volume flow. *)
Definition total_per_flow (C : R) : R :=
  C + C + ((0.0375 * (C / 1000) + 0.9987) * 1000 - C * (58.44 / 1000))
          / (18.01 / 1000).

(** The exergy rate that [efficiencies] obtains from [exergy] for a pair
    of concentrations: the streams mixed in proportion to their flows. *)
Definition available_exergy (Temp cSW cRW fRW fSW : R) : R :=
  Temp * (entropy_rate ((fSW * cSW + fRW * cRW) / (fRW + fSW)) (fRW + fSW)
          - entropy_rate cSW fSW - entropy_rate cRW fRW).

(** All seven membrane attributes have been assigned. *)
Definition membrane_assigned (self : model_class.CoFlow) : Prop :=
  model_class.Raem self <> None /\ model_class.Rcem self <> None
  /\ model_class.a self <> None /\ model_class.Dnacl self <> None
  /\ model_class.Dw self <> None /\ model_class.Hm self <> None
  /\ model_class.Keosm self <> None.

(** The arrays that [solve_system] derives from the two columns of the
    integrator output, for assigned [a], [Raem] and [Rcem], and the
    object it leaves when nothing raises. *)
Section SolvedObject.
Import model_class.
Context {scipy : Scipy}.

Definition emf_profile (self : CoFlow) (a0 : R) (cSW cRW : list R) : list R :=
  map (fun v => a0 * 2 * Rgas self * Temp self / Fad self * ln v)
      (map2 Rdiv (map (activity self) cSW) (map (activity self) cRW)).

Definition Rcell_profile (self : CoFlow) (r1 r2 : R) (cSW cRW : list R) : list R :=
  map2 Rplus (map (fun r => r1 + r2 + r) (map (water_ohmic_drop self) cRW))
             (map (water_ohmic_drop self) cSW).

Definition J_profile (self : CoFlow) (E Rcell : list R) : list R :=
  map2 Rdiv (map (fun e => e - Uload self) E) Rcell.

Definition Pd_profile (U : R) (E Rcell : list R) : list R :=
  map2 Rdiv (map (fun e => e * U - U ^ 2) E) Rcell.

Definition solved_object (self : CoFlow) (a0 r1 r2 : R) (sol : list (R * R))
  : CoFlow :=
  let cRW := map snd sol in
  let cSW := map fst sol in
  let E := emf_profile self a0 cSW cRW in
  let Rcell := Rcell_profile self r1 r2 cSW cRW in
  let J := J_profile self E Rcell in
  let pd_avg := simps (Pd_profile (Uload self) E Rcell) (x self) / (2 * L self) in
  let power := pd_avg * (2 * W self * L self) in
  let dG_in :=
    available_exergy (Temp self) (hd 0 cSW) (hd 0 cRW) (fRW self) (fSW self) in
  let dG_out :=
    available_exergy (Temp self) (last cSW 0) (last cRW 0) (fRW self) (fSW self) in
  with_solution self cRW cSW E Rcell J power pd_avg
    (np_div (100 * power) dG_in) (np_div (100 * power) (dG_in - dG_out)).

End SolvedObject.

(** The integration rule commutes with the multiplication of the samples
    by a constant, as every quadrature rule does. *)
Definition simps_homogeneous (scipy : Scipy) : Prop :=
  forall (k : R) (y x : list R), simps (map (Rmult k) y) x = k * simps y x.

(** * Properties *)

(** ** The exception monad and arrays *)

Lemma bind_Ok_inv {A B : Type} (m : result A) (k : A -> result B) (v : B) :
  bind m k = Ok v -> exists u, m = Ok u /\ k u = Ok v.
Proof.
  destruct m as [u | e]; simpl; intros H; [eauto | discriminate].
Qed.

Lemma map2_length {A B C : Type} (f : A -> B -> C) (u : list A) (v : list B) :
  length u = length v -> length (map2 f u v) = length u.
Proof.
  revert v. induction u as [| a u IH]; intros [| b v] H; simpl in *;
    try discriminate; auto.
Qed.

Lemma map2_nth_error {A B C : Type} (f : A -> B -> C) (u : list A) (v : list B)
    (i : nat) (a : A) (b : B) :
  nth_error u i = Some a -> nth_error v i = Some b ->
  nth_error (map2 f u v) i = Some (f a b).
Proof.
  revert v i. induction u as [| a' u IH]; intros [| b' v] [| i] Hu Hv;
    simpl in *; try discriminate.
  - congruence.
  - auto.
Qed.

Lemma np_binop_same_shape (f : R -> R -> R) (u v : list R) :
  length u = length v -> np_binop f u v = Ok (map2 f u v).
Proof.
  intros H. unfold np_binop. rewrite H, Nat.eqb_refl. reflexivity.
Qed.

Lemma getlast_cons {A : Type} (a : A) (u : list A) :
  getlast (a :: u) = Ok (last (a :: u) a).
Proof.
  simpl. destruct u; reflexivity.
Qed.

Lemma last_cons {A : Type} (l : list A) (a d : A) :
  last (a :: l) d = last l a.
Proof.
  revert a d. induction l as [| b l IH]; intros a d; [reflexivity |].
  change (last (a :: b :: l) d) with (last (b :: l) d).
  now rewrite (IH b d), (IH b a).
Qed.

Lemma map_fst_snd_length {A B : Type} (l : list (A * B)) :
  length (map fst l) = length (map snd l).
Proof. now rewrite !length_map. Qed.

(** ** Division on numpy floats *)

Lemma np_div_finite (a b : R) : b <> 0 -> np_div a b = Fin (a / b).
Proof.
  intros Hb. unfold np_div.
  destruct (Req_dec_T b 0); [contradiction | reflexivity].
Qed.

Lemma np_div_by_zero (a : R) : is_finite (np_div a 0) = false.
Proof.
  unfold np_div. destruct (Req_dec_T 0 0) as [_ | H]; [| now elim H].
  destruct (Req_dec_T a 0); [reflexivity |].
  destruct (Rlt_dec 0 a); reflexivity.
Qed.

Lemma np_div_pos_by_zero (a : R) : 0 < a -> np_div a 0 = PInf.
Proof.
  intros Ha. unfold np_div.
  destruct (Req_dec_T 0 0) as [_ | H]; [| now elim H].
  destruct (Req_dec_T a 0); [lra |].
  destruct (Rlt_dec 0 a); [reflexivity | contradiction].
Qed.

(** ** The power operator *)

Lemma py_pow_zero_base (y : R) : y <> 0 -> py_pow 0 y = 0.
Proof.
  intros Hy. unfold py_pow.
  destruct (Rlt_dec 0 0) as [H | _]; [lra |].
  destruct (Req_dec_T y 0) as [H | _]; [contradiction | reflexivity].
Qed.

Lemma NaCl_valid : valid_salt exergy_TCPC.NaCl.
Proof. unfold valid_salt; simpl; lra. Qed.

(** ** Entropy and exergy *)

Section ExergyFacts.
Import exergy_TCPC.

Lemma entropy_returns (C f : R) :
  exists o, entropy C f = Ok o /\ out_entropy o = entropy_rate C f.
Proof.
  unfold entropy_rate. unfold entropy, fractions, moles. cbn.
  eexists. split; reflexivity.
Qed.

Lemma total_per_flow_pos (C : R) : 0 < C -> 0 < total_per_flow C.
Proof. intros HC. unfold total_per_flow. lra. Qed.

Lemma moles_total (C f : R) :
  nth 3 (moles C f) 0 = f * total_per_flow C.
Proof. unfold moles, total_per_flow. cbn. unfold Rdiv. ring. Qed.

(** The algebra behind the homogeneity of the entropy rate: [k / m] is
    the water content per unit flow, [y] the activity coefficient. *)
Lemma entropy_shape (r y C f k m : R) :
  f <> 0 -> m <> 0 -> C + C + k / m <> 0 ->
  - r * (C * f + C * f + f * k / m)
    * (C * f / (C * f + C * f + f * k / m)
         * ln (y * (C * f / (C * f + C * f + f * k / m)))
       + C * f / (C * f + C * f + f * k / m)
         * ln (y * (C * f / (C * f + C * f + f * k / m)))
       + f * k / m / (C * f + C * f + f * k / m)
         * ln (f * k / m / (C * f + C * f + f * k / m)))
  = f * (- r * (C * 1 + C * 1 + 1 * k / m)
    * (C * 1 / (C * 1 + C * 1 + 1 * k / m)
         * ln (y * (C * 1 / (C * 1 + C * 1 + 1 * k / m)))
       + C * 1 / (C * 1 + C * 1 + 1 * k / m)
         * ln (y * (C * 1 / (C * 1 + C * 1 + 1 * k / m)))
       + 1 * k / m / (C * 1 + C * 1 + 1 * k / m)
         * ln (1 * k / m / (C * 1 + C * 1 + 1 * k / m)))).
Proof.
  intros Hf Hm Ht.
  set (t := C + C + k / m) in *.
  replace (C * f + C * f + f * k / m) with (f * t) by (unfold t, Rdiv; ring).
  replace (C * 1 + C * 1 + 1 * k / m) with t by (unfold t, Rdiv; ring).
  replace (C * f / (f * t)) with (C * 1 / t) by (field; auto).
  replace (f * k / m / (f * t)) with (1 * k / m / t).
  - ring.
  - field. auto.
Qed.

Lemma entropy_rate_linear (C f : R) :
  0 < C -> f <> 0 -> entropy_rate C f = f * entropy_rate C 1.
Proof.
  intros HC Hf. pose proof (total_per_flow_pos C HC) as Ht.
  unfold entropy_rate, entropy, fractions, moles. cbn.
  apply entropy_shape; [assumption | lra |].
  unfold total_per_flow in Ht. lra.
Qed.

Lemma exergy_returns (T cSW cRW cMix fSW fRW fMix : R) :
  exergy T cSW cRW cMix fSW fRW fMix
  = Ok ([entropy_rate cSW fSW; entropy_rate cRW fRW; entropy_rate cMix fMix],
        T * (entropy_rate cMix fMix - entropy_rate cSW fSW
             - entropy_rate cRW fRW)).
Proof.
  destruct (entropy_returns cSW fSW) as (o1 & E1 & V1).
  destruct (entropy_returns cRW fRW) as (o2 & E2 & V2).
  destruct (entropy_returns cMix fMix) as (o3 & E3 & V3).
  unfold exergy. rewrite E1, E2, E3. cbn. rewrite V1, V2, V3. reflexivity.
Qed.

End ExergyFacts.

(** ** Efficiencies *)

Section OutputFacts.
Import exergy_TCPC coFlow_NaCl_outputs.

Lemma available_exergy_is_exergy (Temp cSW cRW fRW fSW : R) :
  exists S,
    exergy Temp cSW cRW ((fSW * cSW + fRW * cRW) / (fRW + fSW)) fSW fRW (fRW + fSW)
    = Ok (S, available_exergy Temp cSW cRW fRW fSW).
Proof. rewrite exergy_returns. eexists. reflexivity. Qed.

Lemma efficiencies_returns (cR0 cS0 : R) (restR restS : list R)
    (fRW fSW Temp Power : R) :
  length restR = length restS ->
  efficiencies (cR0 :: restR) (cS0 :: restS) fRW fSW Temp Power
  = Ok (np_div (100 * Power) (available_exergy Temp cS0 cR0 fRW fSW),
        np_div (100 * Power)
          (available_exergy Temp cS0 cR0 fRW fSW
           - available_exergy Temp (last restS cS0) (last restR cR0) fRW fSW)).
Proof.
  intros Hlen. unfold efficiencies.
  rewrite !getlast_cons.
  cbn [bind].
  rewrite np_binop_same_shape by (rewrite !length_map; simpl; congruence).
  cbn [bind map map2 getitem nth_error].
  rewrite !exergy_returns. cbn [bind snd].
  replace (last (cS0 :: restS) cS0) with (last restS cS0)
    by (destruct restS; reflexivity).
  replace (last (cR0 :: restR) cR0) with (last restR cR0)
    by (destruct restR; reflexivity).
  reflexivity.
Qed.

End OutputFacts.

(** ** The spatial domain *)

Lemma setlast_length {A : Type} (l : list A) (v : A) :
  l <> [] -> length (setlast l v) = length l.
Proof.
  intros Hl. unfold setlast.
  rewrite (app_removelast_last v Hl) at 2.
  rewrite !length_app. reflexivity.
Qed.

Lemma setlast_nth_before {A : Type} (l : list A) (v d : A) (i : nat) :
  (Datatypes.S i < length l)%nat -> nth i (setlast l v) d = nth i l d.
Proof.
  intros Hi. assert (Hl : l <> []) by (destruct l; [simpl in Hi; lia | discriminate]).
  assert (Hlen : (i < length (removelast l))%nat).
  { pose proof (app_removelast_last v Hl) as H.
    apply (f_equal (@length A)) in H. rewrite length_app in H. simpl in H. lia. }
  unfold setlast. rewrite app_nth1 by assumption.
  rewrite (app_removelast_last v Hl) at 2.
  rewrite app_nth1 by assumption. reflexivity.
Qed.

Lemma setlast_nth_last {A : Type} (l : list A) (v d : A) :
  l <> [] -> nth (length l - 1) (setlast l v) d = v.
Proof.
  intros Hl.
  assert (Hlen : length (removelast l) = (length l - 1)%nat).
  { pose proof (app_removelast_last v Hl) as H.
    apply (f_equal (@length A)) in H. rewrite length_app in H. simpl in H. lia. }
  unfold setlast. rewrite <- Hlen.
  rewrite app_nth2 by lia. rewrite Nat.sub_diag. reflexivity.
Qed.

Lemma linspace_returns (start stop : R) (num : Z) :
  (0 <= num)%Z -> exists xs, linspace start stop num = Ok xs.
Proof.
  intros Hn. unfold linspace.
  destruct (Z.ltb_spec num 0) as [H | _]; [lia |]. eexists. reflexivity.
Qed.

Lemma linspace_length (start stop : R) (num : Z) (xs : list R) :
  linspace start stop num = Ok xs -> length xs = Z.to_nat num.
Proof.
  unfold linspace.
  destruct (Z.ltb_spec num 0) as [H | Hn]; [discriminate |].
  intros H. injection H as <-.
  set (ys := map (fun v => v + start) _).
  assert (Hys : length ys = Z.to_nat num).
  { unfold ys. destruct (0 <? num - 1)%Z; [destruct (Req_dec_T _ 0) |];
      rewrite ?length_map, length_seq; reflexivity. }
  destruct (Z.ltb_spec 1 num) as [H1 | _]; [| assumption].
  rewrite setlast_length; [assumption |].
  intros Hnil. rewrite Hnil in Hys. simpl in Hys. lia.
Qed.

(** With at least two points, point [i] is [start + i * step] for the
    fixed step [(stop - start) / (num - 1)]. *)
Lemma linspace_points (start stop : R) (num : Z) (xs : list R) :
  (2 <= num)%Z -> linspace start stop num = Ok xs ->
  length xs = Z.to_nat num
  /\ forall i, (i < Z.to_nat num)%nat ->
       nth i xs 0 = start + INR i * ((stop - start) / IZR (num - 1)).
Proof.
  intros Hn. unfold linspace.
  destruct (Z.ltb_spec num 0) as [H | _]; [lia |].
  destruct (Z.ltb_spec 0 (num - 1)) as [Hdiv | H]; [| lia].
  destruct (Z.ltb_spec 1 num) as [_ | H]; [| lia].
  set (n := Z.to_nat num).
  set (step := (stop - start) / IZR (num - 1)).
  assert (Hd : IZR (num - 1) <> 0) by (apply not_0_IZR; lia).
  assert (Hy : exists h, (forall i, h i = start + INR i * step)
    /\ map (fun v => v + start)
         (if Req_dec_T step 0
          then map (fun v => v * (stop - start))
                 (map (fun v => v / IZR (num - 1)) (map INR (seq 0 n)))
          else map (fun v => v * step) (map INR (seq 0 n)))
       = map h (seq 0 n)).
  { destruct (Req_dec_T step 0) as [Hs | Hs].
    - exists (fun i => INR i / IZR (num - 1) * (stop - start) + start). split.
      + intros i. unfold step. field. assumption.
      + rewrite !map_map. reflexivity.
    - exists (fun i => INR i * step + start). split.
      + intros i. ring.
      + rewrite !map_map. reflexivity. }
  destruct Hy as (h & Hh & ->).
  intros Hxs. injection Hxs as <-.
  assert (Hlen : length (map h (seq 0 n)) = n)
    by now rewrite length_map, length_seq.
  assert (Hne : map h (seq 0 n) <> []).
  { intros H. rewrite H in Hlen. simpl in Hlen. subst n. lia. }
  split.
  - rewrite setlast_length by assumption. assumption.
  - intros i Hi. destruct (Nat.eq_dec (Datatypes.S i) n) as [Hlast | Hin].
    + replace i with (length (map h (seq 0 n)) - 1)%nat at 1 by lia.
      rewrite setlast_nth_last by assumption.
      assert (Hi' : INR i = IZR (num - 1)).
      { rewrite INR_IZR_INZ. f_equal. subst n. lia. }
      rewrite Hi'. unfold step. field. assumption.
    + rewrite setlast_nth_before by lia.
      rewrite (nth_indep _ 0 (h 0%nat)) by lia.
      rewrite map_nth, seq_nth by lia. rewrite Hh. reflexivity.
Qed.

Lemma linspace_first (start stop : R) (num : Z) (xs : list R) :
  (2 <= num)%Z -> linspace start stop num = Ok xs -> nth 0 xs 0 = start.
Proof.
  intros Hn Hxs. destruct (linspace_points _ _ _ _ Hn Hxs) as (_ & Hp).
  rewrite Hp by lia. simpl. ring.
Qed.

Lemma linspace_last (start stop : R) (num : Z) (xs : list R) :
  (2 <= num)%Z -> linspace start stop num = Ok xs ->
  nth (Z.to_nat num - 1) xs 0 = stop.
Proof.
  intros Hn Hxs. destruct (linspace_points _ _ _ _ Hn Hxs) as (_ & Hp).
  rewrite Hp by lia.
  assert (Hd : IZR (num - 1) <> 0) by (apply not_0_IZR; lia).
  replace (INR (Z.to_nat num - 1)) with (IZR (num - 1)).
  - field. assumption.
  - rewrite INR_IZR_INZ. f_equal. lia.
Qed.

Lemma linspace_step (start stop : R) (num : Z) (xs : list R) (i : nat) :
  (2 <= num)%Z -> linspace start stop num = Ok xs ->
  (Datatypes.S i < Z.to_nat num)%nat ->
  nth (Datatypes.S i) xs 0 - nth i xs 0 = (stop - start) / IZR (num - 1).
Proof.
  intros Hn Hxs Hi. destruct (linspace_points _ _ _ _ Hn Hxs) as (_ & Hp).
  rewrite !Hp by lia. rewrite S_INR. ring.
Qed.

Lemma linspace_increasing (start stop : R) (num : Z) (xs : list R) (i : nat) :
  (2 <= num)%Z -> start < stop -> linspace start stop num = Ok xs ->
  (Datatypes.S i < Z.to_nat num)%nat ->
  nth i xs 0 < nth (Datatypes.S i) xs 0.
Proof.
  intros Hn Hlt Hxs Hi.
  pose proof (linspace_step _ _ _ _ _ Hn Hxs Hi) as Hs.
  assert (0 < (stop - start) / IZR (num - 1)).
  { apply Rdiv_lt_0_compat; [lra |]. apply IZR_lt. lia. }
  lra.
Qed.

(** ** Construction and solution of a stack *)

Section ModelFacts.
Import coFlow_NaCl_outputs model_class.

Lemma py_truediv_returns (u v : R) : v <> 0 -> py_truediv u v = Ok (u / v).
Proof.
  intros Hv. unfold py_truediv.
  destruct (Req_dec_T v 0); [contradiction | reflexivity].
Qed.

Lemma init_returns (tRW tSW W L d : R) (membranes : string)
    (Uload cRW0 cSW0 : R) (intervals : Z) :
  tRW <> 0 -> tSW <> 0 -> (0 <= intervals)%Z ->
  exists xs,
    linspace 0 L intervals = Ok xs
    /\ __init__ tRW tSW W L d membranes Uload cRW0 cSW0 intervals
       = Ok (fresh_object tRW tSW W L d (select_membranes membranes)
               Uload cRW0 cSW0 (L * W * d / tSW) (L * W * d / tRW) xs).
Proof.
  intros HR HS Hn. destruct (linspace_returns 0 L intervals Hn) as (xs & Hxs).
  exists xs. split; [assumption |].
  unfold __init__. rewrite !py_truediv_returns by assumption.
  cbn [bind]. rewrite Hxs. reflexivity.
Qed.

Lemma select_membranes_known (membranes : string) :
  known_membranes membranes ->
  select_membranes membranes = ideal_membrane
  \/ select_membranes membranes = fujifilm_membrane.
Proof.
  intros [-> | ->]; [left | right]; reflexivity.
Qed.

Lemma select_membranes_cases (membranes : string) :
  select_membranes membranes = ideal_membrane
  \/ select_membranes membranes = fujifilm_membrane
  \/ select_membranes membranes = no_membrane.
Proof.
  unfold select_membranes.
  destruct (String.eqb membranes "Fujifilm CEM/AEM type 10"); [auto |].
  destruct (String.eqb membranes "Ideal CEM/AEM"); auto.
Qed.

Lemma fresh_object_assigned (tRW tSW W L d : R) (membranes : string)
    (Uload cRW0 cSW0 fSW fRW : R) (xs : list R) :
  known_membranes membranes ->
  membrane_assigned
    (fresh_object tRW tSW W L d (select_membranes membranes)
       Uload cRW0 cSW0 fSW fRW xs).
Proof.
  intros Hk. unfold membrane_assigned.
  destruct (select_membranes_known _ Hk) as [-> | ->]; simpl;
    repeat split; discriminate.
Qed.

Lemma dQdx_total (self : CoFlow) :
  membrane_assigned self -> forall y t, exists dy, dQdx self y t = Ok dy.
Proof.
  intros (H1 & H2 & H3 & H4 & H5 & H6 & H7) [cs cr] t. unfold dQdx.
  destruct (Raem self); [| contradiction].
  destruct (Rcem self); [| contradiction].
  destruct (a self); [| contradiction].
  destruct (Dnacl self); [| contradiction].
  destruct (Dw self); [| contradiction].
  destruct (Hm self); [| contradiction].
  destruct (Keosm self); [| contradiction].
  cbn. eexists. reflexivity.
Qed.

Section WithScipy.
Context {scipy : Scipy}.

Lemma power_density_returns (U : R) (E Rcell : list R) (W L : R) (xs : list R) :
  length E = length Rcell ->
  power_density U E Rcell W L xs
  = Ok (simps (Pd_profile U E Rcell) xs / (2 * L) * (2 * W * L),
        simps (Pd_profile U E Rcell) xs / (2 * L)).
Proof.
  intros Hlen. unfold power_density.
  rewrite np_binop_same_shape by (rewrite length_map; assumption).
  reflexivity.
Qed.

Lemma emf_profile_length (self : CoFlow) (a0 : R) (cSW cRW : list R) :
  length cSW = length cRW -> length (emf_profile self a0 cSW cRW) = length cSW.
Proof.
  intros H. unfold emf_profile.
  rewrite length_map, map2_length; rewrite !length_map; auto.
Qed.

Lemma Rcell_profile_length (self : CoFlow) (r1 r2 : R) (cSW cRW : list R) :
  length cSW = length cRW ->
  length (Rcell_profile self r1 r2 cSW cRW) = length cSW.
Proof.
  intros H. unfold Rcell_profile.
  rewrite map2_length; rewrite !length_map; auto.
Qed.

Lemma solve_system_returns (self : CoFlow) (a0 r1 r2 : R) (sol : list (R * R)) :
  odeint (dQdx self) (Qzero self) (x self) = Ok sol -> sol <> [] ->
  a self = Some a0 -> Raem self = Some r1 -> Rcem self = Some r2 ->
  solve_system self = Ok (solved_object self a0 r1 r2 sol).
Proof.
  intros Hode Hne Ha H1 H2.
  destruct sol as [| row rows]; [contradiction |].
  assert (Hcols : length (map fst (row :: rows)) = length (map snd (row :: rows)))
    by apply map_fst_snd_length.
  unfold solve_system. rewrite Hode, Ha, H1, H2. cbn [bind getattr].
  rewrite np_binop_same_shape by (rewrite !length_map; reflexivity).
  cbn [bind].
  rewrite np_binop_same_shape by (rewrite !length_map; reflexivity).
  cbn [bind].
  fold (emf_profile self a0 (map fst (row :: rows)) (map snd (row :: rows))).
  fold (Rcell_profile self r1 r2 (map fst (row :: rows)) (map snd (row :: rows))).
  rewrite np_binop_same_shape
    by (rewrite length_map, emf_profile_length, Rcell_profile_length; auto).
  cbn [bind].
  rewrite power_density_returns
    by (rewrite emf_profile_length, Rcell_profile_length; auto).
  cbn [bind fst snd].
  cbn [map]. rewrite efficiencies_returns by (rewrite !length_map; reflexivity).
  cbn [bind fst snd].
  unfold solved_object. cbn [map hd].
  rewrite !last_cons.
  reflexivity.
Qed.

End WithScipy.

End ModelFacts.

(** ** The reference integrators satisfy the laws *)

Lemma euler_rows_total (func : R * R -> R -> result (R * R)) (ts : list R) :
  (forall y t, exists dy, func y t = Ok dy) ->
  forall y t0, exists rows,
    euler_rows func y t0 ts = Ok rows /\ length rows = length ts.
Proof.
  intros Htot. induction ts as [| t1 ts IH]; intros y t0; simpl.
  - exists []. split; reflexivity.
  - destruct (Htot y t0) as (dy & ->). cbn [bind].
    destruct (IH (fst y + (t1 - t0) * fst dy, snd y + (t1 - t0) * snd dy) t1)
      as (rows & -> & Hlen).
    cbn [bind]. eexists. split; [reflexivity |]. simpl. now rewrite Hlen.
Qed.

Lemma euler_rows_equilibrium (func : R * R -> R -> result (R * R)) (y0 : R * R)
    (ts : list R) :
  (forall t, func y0 t = Ok (0, 0)) ->
  forall t0, euler_rows func y0 t0 ts = Ok (repeat y0 (length ts)).
Proof.
  intros Heq. induction ts as [| t1 ts IH]; intros t0; simpl.
  - reflexivity.
  - rewrite Heq. cbn [bind fst snd].
    replace (fst y0 + (t1 - t0) * 0, snd y0 + (t1 - t0) * 0) with y0
      by (destruct y0; simpl; f_equal; ring).
    rewrite IH. reflexivity.
Qed.

Lemma reference_scipy_laws : ScipyLaws reference_scipy.
Proof.
  split; simpl.
  - intros func y0 t0 ts Htot. unfold euler_odeint.
    destruct (Htot y0 t0) as (dy & ->). cbn [bind].
    destruct (euler_rows_total func ts Htot y0 t0) as (rows & -> & Hlen).
    exists rows. split; [reflexivity | assumption].
  - intros func y0 t0 ts e He. unfold euler_odeint. rewrite He. reflexivity.
  - intros func y0 t0 ts Heq. unfold euler_odeint.
    rewrite Heq, euler_rows_equilibrium by assumption. reflexivity.
Qed.

(** On three equally spaced points the reference rule is Simpson's
    [h / 3 * (y0 + 4 y1 + y2)]. *)
Lemma simpson_three_equidistant (y0 y1 y2 x0 h : R) :
  h <> 0 ->
  simpson [y0; y1; y2] [x0; x0 + h; x0 + h + h] = h / 3 * (y0 + 4 * y1 + y2).
Proof.
  intros Hh. unfold simpson. simpl.
  replace (x0 + h - x0) with h by ring.
  replace (x0 + h + h - (x0 + h)) with h by ring.
  field. assumption.
Qed.

(** * The claims *)

(** ** C5: the correlation at zero ionic strength *)

(** C5. For salt parameters inside the domain of the correlation
    (positive [b], positive [n], positive [vplus + vmin]) the osmotic
    coefficient at ionic strength 0 is exactly 1 and the activity
    coefficient is 1, from the one expression of each method: the terms
    in [I ** 0.5] and [I ** (2 n)] vanish and [ln 1 = 0]. *)
Theorem TCPC_osmo_at_zero_ionic_strength (s : TCPC.Salt) :
  valid_salt s -> TCPC.osmo s 0 = 1 /\ TCPC.TCPC s 0 = 1.
Proof.
  intros (Hb & Hn & Hv).
  assert (Hh : py_pow 0 0.5 = 0) by (apply py_pow_zero_base; lra).
  assert (Hp : py_pow 0 (2 * TCPC.n s) = 0) by (apply py_pow_zero_base; lra).
  unfold TCPC.osmo, TCPC.TCPC. rewrite Hh, Hp.
  rewrite Rmult_0_r, Rplus_0_r, ln_1. split.
  - unfold Rdiv. ring.
  - rewrite <- exp_0. f_equal. unfold Rdiv. ring.
Qed.

Lemma TCPC_osmo_at_zero_NaCl :
  valid_salt exergy_TCPC.NaCl
  /\ TCPC.osmo exergy_TCPC.NaCl 0 = 1 /\ TCPC.TCPC exergy_TCPC.NaCl 0 = 1.
Proof.
  split.
  - exact NaCl_valid.
  - apply (TCPC_osmo_at_zero_ionic_strength exergy_TCPC.NaCl).
    exact NaCl_valid.
Defined.

(** ** C8: mole fractions *)

(** C8. Whenever [moles C f] has a positive total molar flow, [fractions]
    returns three mole fractions whose sum is 1 (so within 1e-9 of 1). *)
Theorem fractions_of_moles_sum_to_one (C f : R) :
  0 < nth 3 (exergy_TCPC.moles C f) 0 ->
  exists xNa xCl xH2O,
    exergy_TCPC.fractions (exergy_TCPC.moles C f) = Ok [xNa; xCl; xH2O]
    /\ xNa + xCl + xH2O = 1
    /\ Rabs (xNa + xCl + xH2O - 1) <= 1e-9.
Proof.
  unfold exergy_TCPC.moles, exergy_TCPC.fractions. cbn. intros Hpos.
  do 3 eexists. split; [reflexivity |].
  match goal with
  | |- ?s = 1 /\ _ => assert (Hs : s = 1) by (field; lra)
  end.
  split; [exact Hs |]. rewrite Hs.
  replace (1 - 1) with 0 by ring. rewrite Rabs_R0. lra.
Qed.

Lemma fractions_of_moles_seawater :
  0 < nth 3 (exergy_TCPC.moles 512 1) 0
  /\ exists xNa xCl xH2O,
       exergy_TCPC.fractions (exergy_TCPC.moles 512 1) = Ok [xNa; xCl; xH2O]
       /\ xNa + xCl + xH2O = 1
       /\ Rabs (xNa + xCl + xH2O - 1) <= 1e-9.
Proof.
  assert (H : 0 < nth 3 (exergy_TCPC.moles 512 1) 0).
  { rewrite moles_total. unfold total_per_flow. lra. }
  split; [exact H |].
  apply (fractions_of_moles_sum_to_one 512 1). exact H.
Defined.

(** ** C2: the efficiency quotients *)

(** C2, as stated, fails: on a constant profile the exergy at the outlet
    is the exergy at the inlet, their difference is zero, and
    [efficiencies] returns a thermodynamic efficiency of plus infinity
    to its caller instead of signalling that it is undefined. *)
Lemma efficiencies_zero_difference_returns_inf :
  exists (S_in : list R) (dG : R) (eta_energy : npfloat),
    exergy_TCPC.exergy 298 512 17.1 ((1 * 512 + 1 * 17.1) / (1 + 1)) 1 1 (1 + 1)
    = Ok (S_in, dG)
    /\ dG - dG <= 0
    /\ coFlow_NaCl_outputs.efficiencies [17.1; 17.1] [512; 512] 1 1 298 1
       = Ok (eta_energy, PInf).
Proof.
  destruct (available_exergy_is_exergy 298 512 17.1 1 1) as (S_in & HS).
  exists S_in, (available_exergy 298 512 17.1 1 1),
    (np_div (100 * 1) (available_exergy 298 512 17.1 1 1)).
  split; [exact HS |]. split; [lra |].
  rewrite efficiencies_returns by reflexivity. cbn [last].
  rewrite Rminus_diag. rewrite np_div_pos_by_zero by lra. reflexivity.
Qed.

(** C2, amended. [efficiencies] has no guard and no undefined-efficiency
    signal: for non-empty profiles of one length it returns the two
    numpy quotients [100 * Power / dG_in] and
    [100 * Power / (dG_in - dG_out)], where [dG_in] and [dG_out] are the
    exergies that [exergy] returns for the first and the last point.
    A quotient is the real ratio whenever its denominator is not zero,
    negative denominators included, and an infinity or nan when it is
    zero. *)
Theorem efficiencies_are_plain_quotients (cR0 cS0 : R) (restR restS : list R)
    (fRW fSW Temp Power : R) :
  length restR = length restS ->
  let fMix := fRW + fSW in
  let cSWout := last restS cS0 in
  let cRWout := last restR cR0 in
  exists S_in S_out dG_in dG_out,
    exergy_TCPC.exergy Temp cS0 cR0 ((fSW * cS0 + fRW * cR0) / fMix) fSW fRW fMix
    = Ok (S_in, dG_in)
    /\ exergy_TCPC.exergy Temp cSWout cRWout
         ((fSW * cSWout + fRW * cRWout) / fMix) fSW fRW fMix
       = Ok (S_out, dG_out)
    /\ coFlow_NaCl_outputs.efficiencies (cR0 :: restR) (cS0 :: restS)
         fRW fSW Temp Power
       = Ok (np_div (100 * Power) dG_in, np_div (100 * Power) (dG_in - dG_out))
    /\ (dG_in <> 0 ->
        np_div (100 * Power) dG_in = Fin (100 * Power / dG_in))
    /\ (dG_in - dG_out <> 0 ->
        np_div (100 * Power) (dG_in - dG_out)
        = Fin (100 * Power / (dG_in - dG_out)))
    /\ (dG_in = 0 -> is_finite (np_div (100 * Power) dG_in) = false)
    /\ (dG_in - dG_out = 0 ->
        is_finite (np_div (100 * Power) (dG_in - dG_out)) = false).
Proof.
  intros Hlen fMix cSWout cRWout.
  destruct (available_exergy_is_exergy Temp cS0 cR0 fRW fSW) as (S_in & Hin).
  destruct (available_exergy_is_exergy Temp cSWout cRWout fRW fSW)
    as (S_out & Hout).
  exists S_in, S_out, (available_exergy Temp cS0 cR0 fRW fSW),
    (available_exergy Temp cSWout cRWout fRW fSW).
  split; [exact Hin |]. split; [exact Hout |].
  split; [apply efficiencies_returns; assumption |].
  repeat split.
  - apply np_div_finite.
  - apply np_div_finite.
  - intros ->. apply np_div_by_zero.
  - intros ->. apply np_div_by_zero.
Qed.

Lemma efficiencies_on_constant_profile :
  exists S_in S_out dG_in dG_out,
    exergy_TCPC.exergy 298 512 17.1 ((1 * 512 + 1 * 17.1) / (1 + 1)) 1 1 (1 + 1)
    = Ok (S_in, dG_in)
    /\ exergy_TCPC.exergy 298 512 17.1 ((1 * 512 + 1 * 17.1) / (1 + 1)) 1 1 (1 + 1)
       = Ok (S_out, dG_out)
    /\ coFlow_NaCl_outputs.efficiencies [17.1; 17.1] [512; 512] 1 1 298 1
       = Ok (np_div (100 * 1) dG_in, np_div (100 * 1) (dG_in - dG_out)).
Proof.
  destruct (efficiencies_are_plain_quotients 17.1 512 [17.1] [512] 1 1 298 1
              eq_refl)
    as (S_in & S_out & dG_in & dG_out & Hin & Hout & Heff & _).
  exists S_in, S_out, dG_in, dG_out. repeat split; assumption.
Defined.

(** ** C7: power density and power *)

(** C7. For non-empty [E], [Rcell] and [x] of one length,
    [power_density] forms [Pd = (E * U - U ^ 2) / Rcell] point by point,
    the average power density is [simps Pd x / (2 * L)], the Simpson
    integral of [Pd] over [x] divided by [2 L], and the total power is
    that average times [2 * W * L]. *)
Theorem power_density_formula {scipy : Scipy} (U : R) (E Rcell : list R)
    (W L : R) (xs : list R) :
  E <> [] -> length E = length Rcell -> length xs = length E ->
  exists Pd,
    length Pd = length E
    /\ (forall i e r,
          nth_error E i = Some e -> nth_error Rcell i = Some r ->
          nth_error Pd i = Some ((e * U - U ^ 2) / r))
    /\ coFlow_NaCl_outputs.power_density U E Rcell W L xs
       = Ok (simps Pd xs / (2 * L) * (2 * W * L), simps Pd xs / (2 * L)).
Proof.
  intros _ Hlen _. exists (Pd_profile U E Rcell). split; [| split].
  - unfold Pd_profile. rewrite map2_length; rewrite length_map; auto.
  - intros i e r He Hr. unfold Pd_profile.
    apply (map2_nth_error Rdiv _ _ i (e * U - U ^ 2) r); [| assumption].
    rewrite nth_error_map, He. reflexivity.
  - apply power_density_returns. assumption.
Qed.

Lemma power_density_three_points :
  exists Pd,
    length Pd = 3%nat
    /\ (forall i e r,
          nth_error [0.15; 0.14; 0.13] i = Some e ->
          nth_error [2E-3; 2E-3; 2E-3] i = Some r ->
          nth_error Pd i = Some ((e * 0.08 - 0.08 ^ 2) / r))
    /\ coFlow_NaCl_outputs.power_density (scipy := reference_scipy)
         0.08 [0.15; 0.14; 0.13] [2E-3; 2E-3; 2E-3] 0.22 0.22 [0; 0.11; 0.22]
       = Ok (simpson Pd [0; 0.11; 0.22] / (2 * 0.22) * (2 * 0.22 * 0.22),
             simpson Pd [0; 0.11; 0.22] / (2 * 0.22)).
Proof.
  apply (power_density_formula (scipy := reference_scipy) 0.08
           [0.15; 0.14; 0.13] [2E-3; 2E-3; 2E-3] 0.22 0.22 [0; 0.11; 0.22]).
  - discriminate.
  - reflexivity.
  - reflexivity.
Defined.

(** ** Inversion of a successful construction and solve *)

Section Inversion.
Import coFlow_NaCl_outputs model_class.
Context {scipy : Scipy}.

Lemma init_inv (tRW tSW W L d : R) (membranes : string)
    (Uload cRW0 cSW0 : R) (intervals : Z) (self : CoFlow) :
  __init__ tRW tSW W L d membranes Uload cRW0 cSW0 intervals = Ok self ->
  exists xs,
    linspace 0 L intervals = Ok xs
    /\ self = fresh_object tRW tSW W L d (select_membranes membranes)
                Uload cRW0 cSW0 (L * W * d / tSW) (L * W * d / tRW) xs.
Proof.
  unfold __init__, py_truediv. intros H.
  destruct (Req_dec_T tSW 0); [discriminate |].
  destruct (Req_dec_T tRW 0); [discriminate |].
  cbn [bind] in H.
  destruct (linspace 0 L intervals) as [xs | e]; [| discriminate].
  cbn [bind] in H. injection H as <-. exists xs. split; reflexivity.
Qed.

Lemma solve_system_inv (self self' : CoFlow) :
  solve_system self = Ok self' ->
  exists sol a0 r1 r2,
    odeint (dQdx self) (Qzero self) (x self) = Ok sol /\ sol <> []
    /\ a self = Some a0 /\ Raem self = Some r1 /\ Rcem self = Some r2
    /\ self' = solved_object self a0 r1 r2 sol.
Proof.
  intros H.
  destruct (odeint (dQdx self) (Qzero self) (x self)) as [sol | e] eqn:Hode;
    [| unfold solve_system in H; rewrite Hode in H; discriminate].
  destruct (a self) as [a0 |] eqn:Ha;
    [| unfold solve_system in H; rewrite Hode, Ha in H; discriminate].
  destruct sol as [| row rows].
  { unfold solve_system in H. rewrite Hode, Ha in H.
    cbn in H. destruct (Raem self); [| discriminate].
    destruct (Rcem self); discriminate. }
  destruct (Raem self) as [r1 |] eqn:H1.
  2:{ unfold solve_system in H. rewrite Hode, Ha, H1 in H.
      cbn [bind getattr] in H.
      rewrite np_binop_same_shape in H by (rewrite !length_map; reflexivity).
      discriminate. }
  destruct (Rcem self) as [r2 |] eqn:H2.
  2:{ unfold solve_system in H. rewrite Hode, Ha, H1, H2 in H.
      cbn [bind getattr] in H.
      rewrite np_binop_same_shape in H by (rewrite !length_map; reflexivity).
      discriminate. }
  exists (row :: rows), a0, r1, r2.
  rewrite (solve_system_returns self a0 r1 r2 (row :: rows)) in H
    by (assumption || discriminate).
  injection H as <-. repeat split; try reflexivity; try assumption. discriminate.
Qed.

Lemma emf_profile_nth_error (self : CoFlow) (a0 : R) (cSW cRW : list R)
    (i : nat) (cs cr : R) :
  nth_error cSW i = Some cs -> nth_error cRW i = Some cr ->
  nth_error (emf_profile self a0 cSW cRW) i
  = Some (a0 * 2 * Rgas self * Temp self / Fad self
          * ln (activity self cs / activity self cr)).
Proof.
  intros Hs Hr. unfold emf_profile. rewrite nth_error_map.
  rewrite (map2_nth_error Rdiv _ _ i (activity self cs) (activity self cr)).
  - reflexivity.
  - rewrite nth_error_map, Hs. reflexivity.
  - rewrite nth_error_map, Hr. reflexivity.
Qed.

End Inversion.

(** ** A run: construction followed by [solve_system] *)

Section Runs.
Import coFlow_NaCl_outputs model_class.
Context {scipy : Scipy} {laws : ScipyLaws scipy}.

Lemma run_returns (tRW tSW W L d : R) (membranes : string)
    (Uload cRW0 cSW0 : R) (intervals : Z) :
  tRW <> 0 -> tSW <> 0 -> (2 <= intervals)%Z -> known_membranes membranes ->
  exists xs rows a0 r1 r2 self,
    linspace 0 L intervals = Ok xs
    /\ self = fresh_object tRW tSW W L d (select_membranes membranes)
                Uload cRW0 cSW0 (L * W * d / tSW) (L * W * d / tRW) xs
    /\ __init__ tRW tSW W L d membranes Uload cRW0 cSW0 intervals = Ok self
    /\ odeint (dQdx self) (cSW0, cRW0) xs = Ok ((cSW0, cRW0) :: rows)
    /\ length ((cSW0, cRW0) :: rows) = length xs
    /\ a self = Some a0 /\ Raem self = Some r1 /\ Rcem self = Some r2
    /\ solve_system self = Ok (solved_object self a0 r1 r2 ((cSW0, cRW0) :: rows)).
Proof.
  intros HR HS Hn Hk.
  destruct (init_returns tRW tSW W L d membranes Uload cRW0 cSW0 intervals
              HR HS ltac:(lia)) as (xs & Hxs & Hinit).
  destruct (linspace_points 0 L intervals xs Hn Hxs) as (Hlen & _).
  destruct xs as [| t0 ts]; [simpl in Hlen; lia |].
  set (self := fresh_object tRW tSW W L d (select_membranes membranes)
                 Uload cRW0 cSW0 (L * W * d / tSW) (L * W * d / tRW) (t0 :: ts))
    in *.
  assert (Hm : membrane_assigned self) by (apply fresh_object_assigned; assumption).
  destruct (odeint_rows (dQdx self) (cSW0, cRW0) t0 ts (dQdx_total self Hm))
    as (rows & Hode & Hrows).
  assert (Hattrs : exists a0 r1 r2,
             a self = Some a0 /\ Raem self = Some r1 /\ Rcem self = Some r2).
  { destruct Hm as (H1 & H2 & H3 & _).
    destruct (a self) as [a0 |]; [| contradiction].
    destruct (Raem self) as [r1 |]; [| contradiction].
    destruct (Rcem self) as [r2 |]; [| contradiction].
    exists a0, r1, r2. repeat split. }
  destruct Hattrs as (a0 & r1 & r2 & Ha & H1 & H2).
  exists (t0 :: ts), rows, a0, r1, r2, self.
  split; [assumption |]. split; [reflexivity |]. split; [assumption |].
  split; [assumption |]. split; [simpl; congruence |].
  split; [assumption |]. split; [assumption |]. split; [assumption |].
  apply solve_system_returns; try assumption. discriminate.
Qed.

End Runs.

(** ** C4: the electromotive force *)

(** C4. For a constructed stack with a non-empty domain and a
    successful solve: the stored emf has one value per domain point,
    and at every point with positive concentrations it is
    [(a * 2 * R * T / F) * ln (activity_SW / activity_RW)] with the
    permselectivity [a] of the selected membrane, [R = 8.3143],
    [T = 298.0], [F = 96485.0], and the activity of a stream of
    concentration [c] equal to [c * TCPC (c / 1000)], the correlation
    being evaluated at the concentration divided by 1000.  The
    right-hand side [dQdx] uses the same emf: at every state with
    positive concentrations its two derivatives are the fluxes driven
    by the current density [(E - Uload) / Rcell] with that [E]. *)
Theorem emf_is_nernst_at_every_point {scipy : Scipy} {laws : ScipyLaws scipy}
    (tRW tSW W L d : R) (membranes : string) (Uload cRW0 cSW0 : R)
    (intervals : Z) (self self' : model_class.CoFlow) :
  model_class.__init__ tRW tSW W L d membranes Uload cRW0 cSW0 intervals
  = Ok self ->
  model_class.solve_system self = Ok self' ->
  (1 <= intervals)%Z ->
  exists alpha Raem Rcem Dnacl Dw Hm Keosm cSWs cRWs Es,
    model_class.select_membranes membranes
    = {| model_class.m_Raem := Some Raem; model_class.m_Rcem := Some Rcem;
         model_class.m_a := Some alpha; model_class.m_Dnacl := Some Dnacl;
         model_class.m_Dw := Some Dw; model_class.m_Hm := Some Hm;
         model_class.m_Keosm := Some Keosm |}
    /\ model_class.cSW self' = Some cSWs
    /\ model_class.cRW self' = Some cRWs
    /\ model_class.E self' = Some Es
    /\ length Es = length (model_class.x self)
    /\ length cSWs = length (model_class.x self)
    /\ length cRWs = length (model_class.x self)
    /\ (forall i cs cr,
          nth_error cSWs i = Some cs -> nth_error cRWs i = Some cr ->
          0 < cs -> 0 < cr ->
          nth_error Es i
          = Some (alpha * 2 * 8.3143 * 298.0 / 96485.0
                  * ln ((cs * TCPC.TCPC exergy_TCPC.NaCl (cs / 1000))
                        / (cr * TCPC.TCPC exergy_TCPC.NaCl (cr / 1000)))))
    /\ (forall cs cr t,
          0 < cs -> 0 < cr ->
          model_class.dQdx self (cs, cr) t
          = Ok (let E := alpha * 2 * 8.3143 * 298.0 / 96485.0
                         * ln ((cs * TCPC.TCPC exergy_TCPC.NaCl (cs / 1000))
                               / (cr * TCPC.TCPC exergy_TCPC.NaCl (cr / 1000))) in
                let Rcell := Raem + Rcem + 1.65 * d / (0.01287 * cr)
                             + 1.65 * d / (0.01287 * cs) in
                let J := (E - Uload) / Rcell in
                let Tnacl := J / 96485.0 + (cs - cr) * 2 * Dnacl / Hm in
                let Tw := - (cs - cr) * 2 * Dw * 18E-6 / Hm
                          + Keosm * 18E-6 * J / 96485.0 in
                (- W * Tnacl / (L * W * d / tSW) + W * cs * Tw / (L * W * d / tSW),
                 W * Tnacl / (L * W * d / tRW) - W * cr * Tw / (L * W * d / tRW)))).
Proof.
  intros Hinit Hsolve Hn.
  destruct (init_inv _ _ _ _ _ _ _ _ _ _ _ Hinit) as (xs & Hxs & Hself).
  destruct (solve_system_inv _ _ Hsolve)
    as (sol & a0 & r1 & r2 & Hode & _ & Ha & _ & _ & ->).
  assert (Hm : exists Raem Rcem Dnacl Dw Hm Keosm,
             model_class.select_membranes membranes
             = {| model_class.m_Raem := Some Raem; model_class.m_Rcem := Some Rcem;
                  model_class.m_a := Some a0; model_class.m_Dnacl := Some Dnacl;
                  model_class.m_Dw := Some Dw; model_class.m_Hm := Some Hm;
                  model_class.m_Keosm := Some Keosm |}).
  { rewrite Hself in Ha. simpl in Ha.
    destruct (select_membranes_cases membranes) as [Hc | [Hc | Hc]];
      rewrite Hc in Ha |- *; simpl in Ha; try discriminate;
      injection Ha as <-; do 6 eexists; reflexivity. }
  destruct Hm as (Raem & Rcem & Dnacl & Dw & Hm & Keosm & Hsel).
  assert (Hassigned : membrane_assigned self).
  { rewrite Hself, Hsel. unfold membrane_assigned. simpl.
    repeat split; discriminate. }
  pose proof (linspace_length _ _ _ _ Hxs) as Hxlen.
  assert (Hx : model_class.x self = xs) by (rewrite Hself; reflexivity).
  assert (Hq : model_class.Qzero self = (cSW0, cRW0))
    by (rewrite Hself; reflexivity).
  assert (Hrows : length sol = length xs).
  { destruct xs as [| t0 ts]; [simpl in Hxlen; lia |].
    destruct (odeint_rows (model_class.dQdx self) (cSW0, cRW0) t0 ts
                (dQdx_total self Hassigned)) as (rows & Hrows & Hlen).
    rewrite Hx, Hq, Hrows in Hode. injection Hode as <-.
    simpl. now rewrite Hlen. }
  exists a0, Raem, Rcem, Dnacl, Dw, Hm, Keosm, (map fst sol), (map snd sol),
    (emf_profile self a0 (map fst sol) (map snd sol)).
  split; [exact Hsel |].
  split; [reflexivity |]. split; [reflexivity |]. split; [reflexivity |].
  rewrite Hx.
  split; [rewrite emf_profile_length, length_map;
          [exact Hrows | apply map_fst_snd_length] |].
  split; [rewrite length_map; exact Hrows |].
  split; [rewrite length_map; exact Hrows |].
  split.
  - intros i cs cr Hs Hr _ _.
    rewrite (emf_profile_nth_error self a0 _ _ i cs cr Hs Hr).
    rewrite Hself. reflexivity.
  - intros cs cr t _ _. rewrite Hself, Hsel. reflexivity.
Qed.

Lemma emf_of_reference_run :
  exists self self' cSWs cRWs Es,
    model_class.__init__ 22 22 0.22 0.22 100E-6 "Ideal CEM/AEM" 0.08 17.1 512 100
    = Ok self
    /\ model_class.solve_system (scipy := reference_scipy) self = Ok self'
    /\ model_class.cSW self' = Some cSWs
    /\ model_class.cRW self' = Some cRWs
    /\ model_class.E self' = Some Es
    /\ length Es = length (model_class.x self)
    /\ nth_error Es 0
       = Some (0.90 * 2 * 8.3143 * 298.0 / 96485.0
               * ln ((512 * TCPC.TCPC exergy_TCPC.NaCl (512 / 1000))
                     / (17.1 * TCPC.TCPC exergy_TCPC.NaCl (17.1 / 1000)))).
Proof.
  destruct (run_returns (laws := reference_scipy_laws)
              22 22 0.22 0.22 100E-6 "Ideal CEM/AEM" 0.08 17.1 512 100)
    as (xs & rows & a0 & r1 & r2 & self & _ & _ & Hinit & _ & _ & _ & _ & _
        & Hsolve);
    [lra | lra | lia | left; reflexivity |].
  destruct (emf_is_nernst_at_every_point (laws := reference_scipy_laws)
              _ _ _ _ _ _ _ _ _ _ _ _ Hinit Hsolve ltac:(lia))
    as (alpha & Raem & Rcem & Dnacl & Dw & Hm & Keosm & cSWs & cRWs & Es
        & Hsel & HS & HR & HE & Hlen & _ & _ & Hpt & _).
  injection Hsel as _ _ Halpha _ _ _ _.
  simpl in HS, HR. injection HS as <-. injection HR as <-.
  pose proof (Hpt 0%nat 512 17.1 eq_refl eq_refl ltac:(lra) ltac:(lra)) as H0.
  rewrite <- Halpha in H0.
  exists self,
    (solved_object (scipy := reference_scipy) self a0 r1 r2 ((512, 17.1) :: rows)),
    (512 :: map fst rows), (17.1 :: map snd rows), Es.
  split; [exact Hinit |]. split; [exact Hsolve |].
  split; [reflexivity |]. split; [reflexivity |].
  split; [exact HE |]. split; [exact Hlen | exact H0].
Defined.

(** ** C6: the spatial domain and the shape of the profile *)

(** C6. For a valid configuration, construction and solve succeed; the
    domain [x] has [intervals] points, starts at 0, ends at [L], is
    strictly increasing with the fixed step [L / (intervals - 1)]; the
    solved object keeps that domain, and its two concentration arrays
    have [intervals] points each, the first being the configured inlet
    concentration of the stream. *)
Theorem domain_and_profile_shape {scipy : Scipy} {laws : ScipyLaws scipy}
    (tRW tSW W L d : R) (membranes : string) (Uload cRW0 cSW0 : R)
    (intervals : Z) :
  valid_configuration tRW tSW W L d membranes intervals ->
  exists self self' cSWs cRWs,
    model_class.__init__ tRW tSW W L d membranes Uload cRW0 cSW0 intervals
    = Ok self
    /\ model_class.solve_system self = Ok self'
    /\ length (model_class.x self) = Z.to_nat intervals
    /\ nth 0 (model_class.x self) 0 = 0
    /\ nth (Z.to_nat intervals - 1) (model_class.x self) 0 = L
    /\ (forall i, (Datatypes.S i < Z.to_nat intervals)%nat ->
          nth i (model_class.x self) 0 < nth (Datatypes.S i) (model_class.x self) 0)
    /\ (forall i, (Datatypes.S i < Z.to_nat intervals)%nat ->
          nth (Datatypes.S i) (model_class.x self) 0 - nth i (model_class.x self) 0
          = L / IZR (intervals - 1))
    /\ model_class.x self' = model_class.x self
    /\ model_class.cSW self' = Some cSWs
    /\ model_class.cRW self' = Some cRWs
    /\ length cSWs = Z.to_nat intervals
    /\ length cRWs = Z.to_nat intervals
    /\ nth_error cSWs 0 = Some cSW0
    /\ nth_error cRWs 0 = Some cRW0.
Proof.
  intros (HR & HS & HW & HL & Hd & Hk & Hn).
  destruct (run_returns tRW tSW W L d membranes Uload cRW0 cSW0 intervals)
    as (xs & rows & a0 & r1 & r2 & self & Hxs & Hself & Hinit & Hode & Hlen
        & Ha & H1 & H2 & Hsolve); try assumption; try lra.
  destruct (linspace_points 0 L intervals xs Hn Hxs) as (Hxlen & _).
  assert (Hx : model_class.x self = xs) by (subst self; reflexivity).
  exists self, (solved_object self a0 r1 r2 ((cSW0, cRW0) :: rows)),
    (map fst ((cSW0, cRW0) :: rows)), (map snd ((cSW0, cRW0) :: rows)).
  rewrite Hx.
  split; [assumption |]. split; [assumption |]. split; [assumption |].
  split; [apply (linspace_first 0 L intervals); assumption |].
  split; [apply (linspace_last 0 L intervals); assumption |].
  split; [intros i Hi; apply (linspace_increasing 0 L intervals); assumption |].
  split.
  { intros i Hi. rewrite (linspace_step 0 L intervals xs i Hn Hxs Hi).
    now rewrite Rminus_0_r. }
  split; [subst self; reflexivity |].
  split; [reflexivity |]. split; [reflexivity |].
  split; [rewrite length_map; congruence |].
  split; [rewrite length_map; congruence |].
  split; reflexivity.
Qed.

Lemma domain_and_profile_of_reference_run :
  valid_configuration 22 22 0.22 0.22 100E-6 "Ideal CEM/AEM" 100
  /\ exists self self' cSWs cRWs,
       model_class.__init__ 22 22 0.22 0.22 100E-6 "Ideal CEM/AEM" 0.08 17.1 512 100
       = Ok self
       /\ model_class.solve_system (scipy := reference_scipy) self = Ok self'
       /\ length (model_class.x self) = 100%nat
       /\ nth 0 (model_class.x self) 0 = 0
       /\ nth 99 (model_class.x self) 0 = 0.22
       /\ model_class.cSW self' = Some cSWs
       /\ model_class.cRW self' = Some cRWs
       /\ length cSWs = 100%nat
       /\ length cRWs = 100%nat
       /\ nth_error cSWs 0 = Some 512
       /\ nth_error cRWs 0 = Some 17.1.
Proof.
  assert (Hv : valid_configuration 22 22 0.22 0.22 100E-6 "Ideal CEM/AEM" 100).
  { unfold valid_configuration, known_membranes.
    repeat split; try lra; try lia. left; reflexivity. }
  split; [exact Hv |].
  destruct (domain_and_profile_shape (laws := reference_scipy_laws)
              22 22 0.22 0.22 100E-6 "Ideal CEM/AEM" 0.08 17.1 512 100 Hv)
    as (self & self' & cSWs & cRWs & Hinit & Hsolve & Hlen & H0 & HL & _ & _ & _
        & HS & HR & HlS & HlR & HS0 & HR0).
  exists self, self', cSWs, cRWs. repeat split; assumption.
Defined.

(** ** C9: no driving force between equal concentrations *)

Section NoDrivingForce.
Import model_class.

Lemma activity_nonzero (self : CoFlow) (c : R) : c <> 0 -> activity self c <> 0.
Proof.
  intros Hc. unfold activity, TCPC.TCPC.
  apply Rmult_integral_contrapositive_currified; [assumption |].
  apply Rgt_not_eq, exp_pos.
Qed.

Lemma nernst_equal_activities (self : CoFlow) (c : R) :
  c <> 0 -> ln (activity self c / activity self c) = 0.
Proof.
  intros Hc. pose proof (activity_nonzero self c Hc) as Ha.
  replace (activity self c / activity self c) with 1 by (field; assumption).
  apply ln_1.
Qed.

Lemma dQdx_equal_concentrations (self : CoFlow) (c : R) :
  membrane_assigned self -> Uload self = 0 -> c <> 0 ->
  forall t, dQdx self (c, c) t = Ok (0, 0).
Proof.
  intros (H1 & H2 & H3 & H4 & H5 & H6 & H7) HU Hc t. unfold dQdx.
  destruct (Raem self); [| contradiction].
  destruct (Rcem self); [| contradiction].
  destruct (a self); [| contradiction].
  destruct (Dnacl self); [| contradiction].
  destruct (Dw self); [| contradiction].
  destruct (Hm self); [| contradiction].
  destruct (Keosm self); [| contradiction].
  cbn [bind getattr]. rewrite HU, nernst_equal_activities by assumption.
  f_equal. f_equal; unfold Rdiv; ring.
Qed.

Lemma emf_profile_equal_concentrations (self : CoFlow) (a0 c : R) (n : nat) :
  c <> 0 -> emf_profile self a0 (repeat c n) (repeat c n) = repeat 0 n.
Proof.
  intros Hc. unfold emf_profile. induction n as [| n IH]; [reflexivity |].
  simpl. rewrite IH, nernst_equal_activities by assumption.
  f_equal. ring.
Qed.

End NoDrivingForce.

(** C9. For a valid configuration with both inlet concentrations equal
    to [c > 0] and [Uload = 0], the right-hand side [dQdx] is [(0, 0)]
    at [(c, c)] for every position, both concentration profiles are
    constant at [c] over the whole domain, and the emf is 0 at every
    domain point. *)
Theorem equal_concentrations_no_driving_force {scipy : Scipy}
    {laws : ScipyLaws scipy} (tRW tSW W L d : R) (membranes : string) (c : R)
    (intervals : Z) :
  valid_configuration tRW tSW W L d membranes intervals -> 0 < c ->
  exists self self',
    model_class.__init__ tRW tSW W L d membranes 0 c c intervals = Ok self
    /\ (forall t, model_class.dQdx self (c, c) t = Ok (0, 0))
    /\ model_class.solve_system self = Ok self'
    /\ length (model_class.x self') = Z.to_nat intervals
    /\ model_class.cSW self' = Some (repeat c (Z.to_nat intervals))
    /\ model_class.cRW self' = Some (repeat c (Z.to_nat intervals))
    /\ model_class.E self' = Some (repeat 0 (Z.to_nat intervals)).
Proof.
  intros (HR & HS & HW & HL & Hd & Hk & Hn) Hc.
  destruct (init_returns tRW tSW W L d membranes 0 c c intervals)
    as (xs & Hxs & Hinit); try lra; try lia.
  destruct (linspace_points 0 L intervals xs Hn Hxs) as (Hlen & _).
  destruct xs as [| t0 ts]; [simpl in Hlen; lia |].
  set (self := model_class.fresh_object tRW tSW W L d
                 (model_class.select_membranes membranes) 0 c c
                 (L * W * d / tSW) (L * W * d / tRW) (t0 :: ts)) in *.
  assert (Hm : membrane_assigned self)
    by (apply fresh_object_assigned; assumption).
  assert (Hrhs : forall t, model_class.dQdx self (c, c) t = Ok (0, 0))
    by (apply dQdx_equal_concentrations; [assumption | reflexivity | lra]).
  pose proof (odeint_equilibrium (model_class.dQdx self) (c, c) t0 ts Hrhs)
    as Hode.
  assert (Hrep : Datatypes.S (length ts) = Z.to_nat intervals)
    by (simpl in Hlen; exact Hlen).
  rewrite Hrep in Hode.
  assert (Hattrs : exists a0 r1 r2,
             model_class.a self = Some a0 /\ model_class.Raem self = Some r1
             /\ model_class.Rcem self = Some r2).
  { destruct Hm as (H1 & H2 & H3 & _).
    destruct (model_class.a self) as [a0 |]; [| contradiction].
    destruct (model_class.Raem self) as [r1 |]; [| contradiction].
    destruct (model_class.Rcem self) as [r2 |]; [| contradiction].
    exists a0, r1, r2. repeat split. }
  destruct Hattrs as (a0 & r1 & r2 & Ha & H1 & H2).
  exists self, (solved_object self a0 r1 r2 (repeat (c, c) (Z.to_nat intervals))).
  split; [assumption |]. split; [assumption |].
  split.
  { apply solve_system_returns; try assumption.
    rewrite <- Hrep. discriminate. }
  split; [exact Hlen |].
  unfold solved_object. cbn [model_class.with_solution model_class.cSW
    model_class.cRW model_class.E].
  rewrite !map_repeat. cbn [fst snd].
  split; [reflexivity |]. split; [reflexivity |].
  rewrite emf_profile_equal_concentrations by lra. reflexivity.
Qed.

Lemma equal_concentrations_reference_run :
  valid_configuration 22 22 0.22 0.22 100E-6 "Fujifilm CEM/AEM type 10" 100
  /\ 0 < 512
  /\ exists self self',
       model_class.__init__ 22 22 0.22 0.22 100E-6 "Fujifilm CEM/AEM type 10"
         0 512 512 100 = Ok self
       /\ (forall t, model_class.dQdx self (512, 512) t = Ok (0, 0))
       /\ model_class.solve_system (scipy := reference_scipy) self = Ok self'
       /\ model_class.cSW self' = Some (repeat 512 100)
       /\ model_class.cRW self' = Some (repeat 512 100)
       /\ model_class.E self' = Some (repeat 0 100).
Proof.
  assert (Hv : valid_configuration 22 22 0.22 0.22 100E-6
                 "Fujifilm CEM/AEM type 10" 100).
  { unfold valid_configuration, known_membranes.
    repeat split; try lra; try lia. right; reflexivity. }
  assert (Hc : 0 < 512) by lra.
  split; [exact Hv |]. split; [exact Hc |].
  destruct (equal_concentrations_no_driving_force (laws := reference_scipy_laws)
              22 22 0.22 0.22 100E-6 "Fujifilm CEM/AEM type 10" 512 100 Hv Hc)
    as (self & self' & Hinit & Hrhs & Hsolve & _ & HS & HR & HE).
  exists self, self'. repeat split; assumption.
Defined.

(** ** C3: no validation of the integrator output *)

(** C3, as stated, fails: with a negative river-water inlet
    concentration the profile that the integrator returns is negative
    at the first domain point, and [solve_system] neither raises nor
    reports a failure: it post-processes the profile and marks the run
    as solved. *)
Lemma negative_concentration_is_post_processed :
  exists self self' cRWs,
    model_class.__init__ 22 22 0.22 0.22 100E-6 "Ideal CEM/AEM" 0.08 (-1) 512 100
    = Ok self
    /\ model_class.solve_system (scipy := reference_scipy) self = Ok self'
    /\ model_class.cRW self' = Some cRWs
    /\ nth_error cRWs 0 = Some (-1)
    /\ -1 < 0
    /\ model_class.E self' <> None
    /\ model_class.power self' <> None
    /\ model_class.solved self' = true.
Proof.
  destruct (run_returns (laws := reference_scipy_laws)
              22 22 0.22 0.22 100E-6 "Ideal CEM/AEM" 0.08 (-1) 512 100)
    as (xs & rows & a0 & r1 & r2 & self & _ & _ & Hinit & _ & _ & _ & _ & _
        & Hsolve);
    [lra | lra | lia | left; reflexivity |].
  exists self,
    (solved_object (scipy := reference_scipy) self a0 r1 r2 ((512, -1) :: rows)),
    (map snd ((512, -1) :: rows)).
  split; [assumption |]. split; [assumption |].
  split; [reflexivity |]. split; [reflexivity |]. split; [lra |].
  split; [discriminate |]. split; [discriminate |]. reflexivity.
Qed.

(** C3, amended. [solve_system] does not validate what the integrator
    returns.  Whenever [odeint] returns a non-empty profile for a stack
    whose membrane attributes are assigned, [solve_system] raises
    nothing: it stores the two columns exactly as returned, without
    clipping or substitution and whatever their sign, derives emf,
    cell resistance, current density, power and efficiencies from them,
    and marks the run as solved. *)
Theorem solve_system_keeps_integrator_output {scipy : Scipy}
    (self : model_class.CoFlow) (sol : list (R * R)) :
  membrane_assigned self ->
  odeint (model_class.dQdx self) (model_class.Qzero self) (model_class.x self)
  = Ok sol ->
  sol <> [] ->
  exists self',
    model_class.solve_system self = Ok self'
    /\ model_class.solved self' = true
    /\ model_class.cSW self' = Some (map fst sol)
    /\ model_class.cRW self' = Some (map snd sol)
    /\ model_class.E self' <> None
    /\ model_class.Rcell self' <> None
    /\ model_class.J self' <> None
    /\ model_class.power self' <> None
    /\ model_class.pd_avg self' <> None
    /\ model_class.eta_energy self' <> None
    /\ model_class.eta_thermo self' <> None.
Proof.
  intros (H1 & H2 & H3 & _) Hode Hne.
  destruct (model_class.a self) as [a0 |] eqn:Ha; [| contradiction].
  destruct (model_class.Raem self) as [r1 |] eqn:Hr1; [| contradiction].
  destruct (model_class.Rcem self) as [r2 |] eqn:Hr2; [| contradiction].
  exists (solved_object self a0 r1 r2 sol).
  split; [apply solve_system_returns; assumption |].
  unfold solved_object. simpl.
  repeat split; discriminate.
Qed.

Lemma solve_system_keeps_reference_output :
  exists self rows self',
    model_class.__init__ 22 22 0.22 0.22 100E-6 "Ideal CEM/AEM" 0.08 17.1 512 100
    = Ok self
    /\ membrane_assigned self
    /\ odeint (Scipy := reference_scipy) (model_class.dQdx self)
         (model_class.Qzero self) (model_class.x self)
       = Ok ((512, 17.1) :: rows)
    /\ model_class.solve_system (scipy := reference_scipy) self = Ok self'
    /\ model_class.solved self' = true
    /\ model_class.cSW self' = Some (map fst ((512, 17.1) :: rows))
    /\ model_class.cRW self' = Some (map snd ((512, 17.1) :: rows)).
Proof.
  destruct (run_returns (laws := reference_scipy_laws)
              22 22 0.22 0.22 100E-6 "Ideal CEM/AEM" 0.08 17.1 512 100)
    as (xs & rows & a0 & r1 & r2 & self & _ & Hself & Hinit & Hode & _ & _ & _
        & _ & _);
    [lra | lra | lia | left; reflexivity |].
  assert (Hm : membrane_assigned self).
  { rewrite Hself. apply fresh_object_assigned. left; reflexivity. }
  assert (Hode' : odeint (Scipy := reference_scipy) (model_class.dQdx self)
                    (model_class.Qzero self) (model_class.x self)
                  = Ok ((512, 17.1) :: rows)).
  { rewrite Hself in *. exact Hode. }
  destruct (solve_system_keeps_integrator_output (scipy := reference_scipy)
              self ((512, 17.1) :: rows) Hm Hode' ltac:(discriminate))
    as (self' & Hsolve & Hsolved & HS & HR & _).
  exists self, rows, self'.
  split; [exact Hinit |]. split; [exact Hm |]. split; [exact Hode' |].
  split; [exact Hsolve |]. split; [exact Hsolved |].
  split; [exact HS | exact HR].
Defined.

(** ** C1: an unrecognised membrane label *)

Lemma select_membranes_unknown (membranes : string) :
  ~ known_membranes membranes ->
  model_class.select_membranes membranes = model_class.no_membrane.
Proof.
  intros Hk. unfold model_class.select_membranes.
  destruct (String.eqb_spec membranes "Ideal CEM/AEM") as [H | _];
    [elim Hk; left; exact H |].
  destruct (String.eqb_spec membranes "Fujifilm CEM/AEM type 10") as [H | _];
    [elim Hk; right; exact H |].
  reflexivity.
Qed.

Lemma dQdx_without_membrane (self : model_class.CoFlow) (Q : R * R) (t : R) :
  model_class.a self = None -> model_class.dQdx self Q t = Raise AttributeError.
Proof.
  intros Ha. unfold model_class.dQdx. destruct Q as [cs cr].
  rewrite Ha. reflexivity.
Qed.

(** C1 does not hold of the code.  With the label ['ideal membranes']
    that the docstring of [__init__] gives, neither [if] matches:
    construction returns an object, none of the seven membrane
    attributes is assigned, and no error is raised by [__init__].  The
    first failure is the [AttributeError] of reading [self.a] inside the
    right-hand side, which leaves [solve_system] from within the call of
    the integrator. *)
Theorem unrecognised_membrane_is_not_rejected :
  exists self,
    model_class.__init__ 22 22 0.22 0.22 100E-6 "ideal membranes" 0.08 17.1 512 100
    = Ok self
    /\ model_class.Raem self = None /\ model_class.Rcem self = None
    /\ model_class.a self = None /\ model_class.Dnacl self = None
    /\ model_class.Dw self = None /\ model_class.Hm self = None
    /\ model_class.Keosm self = None
    /\ (forall Q t, model_class.dQdx self Q t = Raise AttributeError)
    /\ model_class.solve_system (scipy := reference_scipy) self
       = Raise AttributeError.
Proof.
  destruct (init_returns 22 22 0.22 0.22 100E-6 "ideal membranes" 0.08 17.1 512 100)
    as (xs & Hxs & Hinit); [lra | lra | lia |].
  destruct (linspace_points 0 0.22 100 xs ltac:(lia) Hxs) as (Hlen & _).
  destruct xs as [| t0 ts]; [simpl in Hlen; lia |].
  eexists. split; [exact Hinit |].
  do 7 (split; [reflexivity |]).
  split.
  - intros Q t. apply dQdx_without_membrane. reflexivity.
  - unfold model_class.solve_system.
    cbn [model_class.x model_class.fresh_object model_class.Qzero].
    rewrite (odeint_raise (ScipyLaws := reference_scipy_laws) _ _ _ _ AttributeError);
      [reflexivity |].
    apply dQdx_without_membrane. reflexivity.
Qed.

(** * Further properties of the package *)

(** ** Molar flows and mole fractions *)

(** X1. The molar flows returned by [moles] are electroneutral
    ([nNa = nCl = C f]), the total is the sum of the three species, and
    they carry the whole mass flow: salt moles times the molar mass of
    NaCl plus water moles times the molar mass of water is the density
    times the volume flow. *)
Theorem moles_mass_balance (C f : R) :
  exists nNa nCl nH2O nTot,
    exergy_TCPC.moles C f = [nNa; nCl; nH2O; nTot]
    /\ nNa = C * f /\ nCl = nNa
    /\ nTot = nNa + nCl + nH2O
    /\ nNa * (58.44 / 1000) + nH2O * (18.01 / 1000)
       = f * ((0.0375 * (C / 1000) + 0.9987) * 1000).
Proof.
  unfold exergy_TCPC.moles. do 4 eexists.
  split; [reflexivity |]. split; [reflexivity |]. split; [reflexivity |].
  split; [reflexivity |].
  set (dens := (0.0375 * (C / 1000) + 0.9987) * 1000).
  set (mn := 58.44 / 1000).
  assert (Hw : 18.01 / 1000 <> 0) by lra.
  set (mw := 18.01 / 1000) in *.
  field. assumption.
Qed.

(** X2. For a positive concentration and a non-zero flow rate, the mole
    fractions do not depend on the flow rate: [fractions (moles C f)]
    is [fractions (moles C 1)]. *)
Theorem fractions_independent_of_flow (C f : R) :
  0 < C -> f <> 0 ->
  exergy_TCPC.fractions (exergy_TCPC.moles C f)
  = exergy_TCPC.fractions (exergy_TCPC.moles C 1).
Proof.
  intros HC Hf. pose proof (total_per_flow_pos C HC) as Ht.
  unfold total_per_flow in Ht.
  unfold exergy_TCPC.fractions, exergy_TCPC.moles. cbn.
  set (k := (0.0375 * (C / 1000) + 0.9987) * 1000 - C * (58.44 / 1000)) in *.
  assert (Hm : 18.01 / 1000 <> 0) by lra.
  set (m := 18.01 / 1000) in *.
  assert (Hs : C * f + C * f + f * k / m = f * (C + C + k / m))
    by (unfold Rdiv; ring).
  assert (H1 : C * 1 + C * 1 + 1 * k / m = C + C + k / m)
    by (unfold Rdiv; ring).
  rewrite Hs, H1.
  assert (Ht' : C + C + k / m <> 0) by lra.
  set (t := C + C + k / m) in *.
  f_equal. f_equal; [| f_equal; [| f_equal]]; field; repeat split; assumption.
Qed.

Lemma fractions_of_seawater_at_two_flows :
  (0 < 512 /\ 3 <> 0)
  /\ exergy_TCPC.fractions (exergy_TCPC.moles 512 3)
     = exergy_TCPC.fractions (exergy_TCPC.moles 512 1).
Proof.
  assert (HC : 0 < 512) by lra.
  assert (Hf : 3 <> 0) by lra.
  split; [split; assumption |].
  apply (fractions_independent_of_flow 512 3 HC Hf).
Defined.

(** X3. [fractions] reads the entries 0 to 3 of its argument: a list
    with fewer than four entries raises [IndexError]; any longer list
    whose fourth entry is not zero gives exactly three fractions, each
    of the first three entries divided by the fourth, whatever
    follows. *)
Theorem fractions_needs_four_entries (n : list R) :
  ((length n < 4)%nat -> exergy_TCPC.fractions n = Raise IndexError)
  /\ ((4 <= length n)%nat -> nth 3 n 0 <> 0 ->
      exergy_TCPC.fractions n
      = Ok [nth 0 n 0 / nth 3 n 0; nth 1 n 0 / nth 3 n 0; nth 2 n 0 / nth 3 n 0]).
Proof.
  unfold exergy_TCPC.fractions. split.
  - intros H.
    destruct n as [| n0 [| n1 [| n2 [| n3 rest]]]]; simpl in H; try reflexivity.
    lia.
  - intros H _.
    destruct n as [| n0 [| n1 [| n2 [| n3 rest]]]]; simpl in H; try lia.
    reflexivity.
Qed.

(** ** Exergy *)

Lemma entropy_rate_scaled (C k f : R) :
  0 < C -> k <> 0 -> f <> 0 -> entropy_rate C (k * f) = k * entropy_rate C f.
Proof.
  intros HC Hk Hf.
  rewrite (entropy_rate_linear C (k * f)), (entropy_rate_linear C f);
    try assumption.
  - ring.
  - apply Rmult_integral_contrapositive_currified; assumption.
Qed.

(** X4. For positive concentrations and non-zero flows the mixing
    exergy does not depend on which of the two feed streams is passed
    first: exchanging (cSW, fSW) with (cRW, fRW) exchanges the first two
    entries of the entropy list and leaves the exergy unchanged. *)
Theorem exergy_symmetric_in_streams (T cSW cRW cMix fSW fRW fMix : R) :
  0 < cSW -> 0 < cRW -> 0 < cMix ->
  fSW <> 0 -> fRW <> 0 -> fMix <> 0 ->
  exists s1 s2 s3 e,
    exergy_TCPC.exergy T cSW cRW cMix fSW fRW fMix = Ok ([s1; s2; s3], e)
    /\ exergy_TCPC.exergy T cRW cSW cMix fRW fSW fMix = Ok ([s2; s1; s3], e).
Proof.
  intros _ _ _ _ _ _.
  rewrite !exergy_returns. do 4 eexists. split; [reflexivity |].
  f_equal. f_equal. ring.
Qed.

Lemma exergy_of_exchanged_streams :
  exists s1 s2 s3 e,
    exergy_TCPC.exergy 298 512 17.1 264.55 1 1 2 = Ok ([s1; s2; s3], e)
    /\ exergy_TCPC.exergy 298 17.1 512 264.55 1 1 2 = Ok ([s2; s1; s3], e).
Proof.
  apply (exergy_symmetric_in_streams 298 512 17.1 264.55 1 1 2); lra.
Defined.

(** X5. The exergy rate is extensive: for positive concentrations and
    non-zero flows, multiplying the three flow rates by [k] multiplies
    the exergy by [k]. *)
Theorem exergy_scales_with_flow (T cSW cRW cMix fSW fRW fMix k : R) :
  0 < cSW -> 0 < cRW -> 0 < cMix ->
  fSW <> 0 -> fRW <> 0 -> fMix <> 0 -> k <> 0 ->
  exists S S' e,
    exergy_TCPC.exergy T cSW cRW cMix fSW fRW fMix = Ok (S, e)
    /\ exergy_TCPC.exergy T cSW cRW cMix (k * fSW) (k * fRW) (k * fMix)
       = Ok (S', k * e).
Proof.
  intros HS HR HM HfS HfR HfM Hk.
  rewrite !exergy_returns. do 3 eexists. split; [reflexivity |].
  f_equal. f_equal.
  rewrite !entropy_rate_scaled by assumption. ring.
Qed.

Lemma exergy_of_doubled_flows :
  (0 < 512 /\ 0 < 17.1 /\ 0 < 264.55 /\ 1 <> 0 /\ 1 <> 0 /\ 2 <> 0 /\ 2 <> 0)
  /\ exists S S' e,
       exergy_TCPC.exergy 298 512 17.1 264.55 1 1 2 = Ok (S, e)
       /\ exergy_TCPC.exergy 298 512 17.1 264.55 (2 * 1) (2 * 1) (2 * 2)
          = Ok (S', 2 * e).
Proof.
  assert (H1 : 0 < 512) by lra. assert (H2 : 0 < 17.1) by lra.
  assert (H3 : 0 < 264.55) by lra. assert (H4 : 1 <> 0) by lra.
  assert (H5 : 2 <> 0) by lra.
  split; [repeat split; assumption |].
  apply (exergy_scales_with_flow 298 512 17.1 264.55 1 1 2 2); assumption.
Defined.

(** ** Efficiencies: errors and invariances *)

(** X6. [efficiencies] starts by reading the last point of each
    profile: an empty seawater or river-water profile raises
    [IndexError].  Two profiles of different lengths, both of at least
    two points, cannot be combined into the mixed concentration and
    raise [ValueError]. *)
Theorem efficiencies_rejects_bad_shapes (cRW cSW : list R)
    (fRW fSW Temp Power : R) :
  (cSW = [] \/ cRW = [] ->
   coFlow_NaCl_outputs.efficiencies cRW cSW fRW fSW Temp Power
   = Raise IndexError)
  /\ ((2 <= length cRW)%nat -> (2 <= length cSW)%nat ->
      length cRW <> length cSW ->
      coFlow_NaCl_outputs.efficiencies cRW cSW fRW fSW Temp Power
      = Raise ValueError).
Proof.
  unfold coFlow_NaCl_outputs.efficiencies. split.
  - intros [-> | ->]; [reflexivity |].
    destruct cSW as [| c cSW]; [reflexivity |].
    rewrite getlast_cons. reflexivity.
  - intros HR HS Hne.
    destruct cRW as [| r0 [| r1 cRW]]; simpl in HR; try lia.
    destruct cSW as [| s0 [| s1 cSW]]; simpl in HS; try lia.
    rewrite !getlast_cons. cbn [bind]. unfold np_binop.
    rewrite !length_map.
    destruct (Nat.eqb_spec (length (s0 :: s1 :: cSW)) (length (r0 :: r1 :: cRW)))
      as [Heq | _]; [elim Hne; symmetry; exact Heq |].
    reflexivity.
Qed.

(** X7. The efficiencies depend on the profiles only through their
    first and last points: the interior of the profiles can be dropped
    without changing the result. *)
Theorem efficiencies_use_end_points_only (cR0 cS0 cRL cSL : R)
    (midR midS : list R) (fRW fSW Temp Power : R) :
  length midR = length midS ->
  coFlow_NaCl_outputs.efficiencies (cR0 :: midR ++ [cRL]) (cS0 :: midS ++ [cSL])
    fRW fSW Temp Power
  = coFlow_NaCl_outputs.efficiencies [cR0; cRL] [cS0; cSL] fRW fSW Temp Power.
Proof.
  intros Hlen.
  rewrite !efficiencies_returns
    by (rewrite ?length_app; simpl; congruence).
  rewrite !last_last. reflexivity.
Qed.

Lemma efficiencies_of_four_and_two_points :
  coFlow_NaCl_outputs.efficiencies [17.1; 20; 30; 40] [512; 510; 500; 490]
    1 1 298 1
  = coFlow_NaCl_outputs.efficiencies [17.1; 40] [512; 490] 1 1 298 1.
Proof.
  apply (efficiencies_use_end_points_only 17.1 512 40 490 [20; 30] [510; 500]
           1 1 298 1).
  reflexivity.
Defined.








(** ** Construction: failures, domain and membrane attributes *)

Lemma linspace_single_point (start stop : R) :
  linspace start stop 1 = Ok [INR 0 * (stop - start) + start].
Proof. reflexivity. Qed.

(** X10. Construction fails in exactly two ways.  A zero residence time
    raises [ZeroDivisionError] from the flow-rate division (the seawater
    one first); otherwise a negative [intervals] raises [ValueError]
    from the domain; otherwise an object is returned, whatever the
    membrane label, the geometry, the load and the concentrations. *)
Theorem init_failure_modes (tRW tSW W L d : R) (membranes : string)
    (Uload cRW0 cSW0 : R) (intervals : Z) :
  (tSW = 0 \/ tRW = 0 ->
   model_class.__init__ tRW tSW W L d membranes Uload cRW0 cSW0 intervals
   = Raise ZeroDivisionError)
  /\ (tSW <> 0 /\ tRW <> 0 /\ (intervals < 0)%Z ->
      model_class.__init__ tRW tSW W L d membranes Uload cRW0 cSW0 intervals
      = Raise ValueError)
  /\ (tSW <> 0 /\ tRW <> 0 /\ (0 <= intervals)%Z ->
      exists self,
        model_class.__init__ tRW tSW W L d membranes Uload cRW0 cSW0 intervals
        = Ok self).
Proof.
  split; [| split].
  - intros H. unfold model_class.__init__, py_truediv.
    destruct (Req_dec_T tSW 0) as [_ | HS]; [reflexivity |].
    destruct H as [H | H]; [contradiction |].
    destruct (Req_dec_T tRW 0) as [_ | HR]; [reflexivity | contradiction].
  - intros (HS & HR & Hn). unfold model_class.__init__.
    rewrite !py_truediv_returns by assumption. cbn [bind].
    unfold linspace. destruct (Z.ltb_spec intervals 0) as [_ | H]; [reflexivity | lia].
  - intros (HS & HR & Hn).
    destruct (init_returns tRW tSW W L d membranes Uload cRW0 cSW0 intervals
                HR HS Hn) as (xs & _ & Hinit).
    eexists. exact Hinit.
Qed.

(** X11. The domain of a constructed object always has [intervals]
    points and, when it is not empty, starts at 0.  With a single
    point the domain is just [[0]]: the end [L] of the flow path is not
    part of it. *)
Theorem init_domain_size (tRW tSW W L d : R) (membranes : string)
    (Uload cRW0 cSW0 : R) (intervals : Z) (self : model_class.CoFlow) :
  model_class.__init__ tRW tSW W L d membranes Uload cRW0 cSW0 intervals
  = Ok self ->
  length (model_class.x self) = Z.to_nat intervals
  /\ ((1 <= intervals)%Z -> nth_error (model_class.x self) 0 = Some 0)
  /\ (intervals = 1%Z -> model_class.x self = [0]).
Proof.
  intros Hinit. destruct (init_inv _ _ _ _ _ _ _ _ _ _ _ Hinit) as (xs & Hxs & ->).
  cbn [model_class.x model_class.fresh_object].
  assert (Hone : intervals = 1%Z -> xs = [0]).
  { intros ->. rewrite linspace_single_point in Hxs. injection Hxs as <-.
    f_equal. simpl. ring. }
  split; [apply (linspace_length 0 L); assumption |]. split; [| exact Hone].
  intros Hn. destruct (Z.eq_dec intervals 1) as [H1 | H1].
  - rewrite (Hone H1). reflexivity.
  - pose proof (linspace_length _ _ _ _ Hxs) as Hlen.
    pose proof (linspace_first 0 L intervals xs ltac:(lia) Hxs) as Hfirst.
    destruct xs as [| x0 xs]; [simpl in Hlen; lia |].
    simpl in Hfirst. subst x0. reflexivity.
Qed.

Lemma init_domain_of_one_point :
  exists self,
    model_class.__init__ 22 22 0.22 0.22 100E-6 "Ideal CEM/AEM" 0.08 17.1 512 1
    = Ok self
    /\ length (model_class.x self) = 1%nat
    /\ model_class.x self = [0].
Proof.
  destruct (init_returns 22 22 0.22 0.22 100E-6 "Ideal CEM/AEM" 0.08 17.1 512 1)
    as (xs & _ & Hinit); [lra | lra | lia |].
  destruct (init_domain_size _ _ _ _ _ _ _ _ _ _ _ Hinit) as (Hlen & _ & Hone).
  eexists. split; [exact Hinit |]. split; [exact Hlen | exact (Hone eq_refl)].
Defined.

(** X12. The seven membrane attributes of a constructed object are
    assigned together or not at all, and they are assigned exactly when
    the label is one of the two that [__init__] compares with.  At
    every state with positive concentrations the right-hand side [dQdx]
    returns a pair of derivatives when the label is recognised and
    raises [AttributeError] when it is not; with an unrecognised label,
    positive inlet concentrations and a non-empty domain,
    [solve_system] raises [AttributeError]. *)
Theorem membrane_attributes_all_or_none {scipy : Scipy} {laws : ScipyLaws scipy}
    (tRW tSW W L d : R) (membranes : string) (Uload cRW0 cSW0 : R)
    (intervals : Z) (self : model_class.CoFlow) :
  model_class.__init__ tRW tSW W L d membranes Uload cRW0 cSW0 intervals
  = Ok self ->
  (known_membranes membranes ->
   membrane_assigned self
   /\ forall cs cr t, 0 < cs -> 0 < cr ->
        exists dy, model_class.dQdx self (cs, cr) t = Ok dy)
  /\ (~ known_membranes membranes ->
      model_class.Raem self = None /\ model_class.Rcem self = None
      /\ model_class.a self = None /\ model_class.Dnacl self = None
      /\ model_class.Dw self = None /\ model_class.Hm self = None
      /\ model_class.Keosm self = None
      /\ (forall cs cr t, 0 < cs -> 0 < cr ->
            model_class.dQdx self (cs, cr) t = Raise AttributeError)
      /\ ((1 <= intervals)%Z -> 0 < cSW0 -> 0 < cRW0 ->
          model_class.solve_system self = Raise AttributeError)).
Proof.
  intros Hinit. destruct (init_inv _ _ _ _ _ _ _ _ _ _ _ Hinit) as (xs & Hxs & ->).
  split.
  - intros Hk.
    pose proof (fresh_object_assigned tRW tSW W L d membranes Uload cRW0 cSW0
                  (L * W * d / tSW) (L * W * d / tRW) xs Hk) as Hm.
    split; [exact Hm |]. intros cs cr t _ _. apply dQdx_total; exact Hm.
  - intros Hk. simpl. rewrite (select_membranes_unknown membranes Hk). simpl.
    do 7 (split; [reflexivity |]).
    assert (Hrhs : forall Q t,
               model_class.dQdx
                 (model_class.fresh_object tRW tSW W L d model_class.no_membrane
                    Uload cRW0 cSW0 (L * W * d / tSW) (L * W * d / tRW) xs) Q t
               = Raise AttributeError)
      by (intros Q t; apply dQdx_without_membrane; reflexivity).
    split; [intros cs cr t _ _; reflexivity |].
    intros Hn _ _. pose proof (linspace_length _ _ _ _ Hxs) as Hlen.
    destruct xs as [| t0 ts]; [simpl in Hlen; lia |].
    unfold model_class.solve_system.
    cbn [model_class.x model_class.fresh_object model_class.Qzero].
    rewrite (odeint_raise _ _ _ _ AttributeError); [reflexivity |].
    apply Hrhs.
Qed.

Lemma membrane_attributes_of_misspelt_label :
  exists self,
    model_class.__init__ 22 22 0.22 0.22 100E-6 "ideal CEM/AEM" 0.08 17.1 512 100
    = Ok self
    /\ model_class.a self = None
    /\ model_class.dQdx self (512, 17.1) 0 = Raise AttributeError
    /\ model_class.solve_system (scipy := reference_scipy) self
       = Raise AttributeError.
Proof.
  destruct (init_returns 22 22 0.22 0.22 100E-6 "ideal CEM/AEM" 0.08 17.1 512 100)
    as (xs & _ & Hinit); [lra | lra | lia |].
  destruct (membrane_attributes_all_or_none (laws := reference_scipy_laws)
              _ _ _ _ _ _ _ _ _ _ _ Hinit) as (_ & Hunknown).
  assert (Hk : ~ known_membranes "ideal CEM/AEM")
    by (intros [H | H]; discriminate H).
  destruct (Hunknown Hk) as (_ & _ & Ha & _ & _ & _ & _ & Hrhs & Hsolve).
  eexists. split; [exact Hinit |]. split; [exact Ha |].
  split; [apply Hrhs; lra | apply Hsolve; [lia | lra | lra]].
Defined.

(** ** Resistances, current density and the sign of the emf *)

Section ProfileFacts.
Import model_class.

Lemma Rcell_profile_nth_error (self : CoFlow) (r1 r2 : R) (cSW cRW : list R)
    (i : nat) (cs cr : R) :
  nth_error cSW i = Some cs -> nth_error cRW i = Some cr ->
  nth_error (Rcell_profile self r1 r2 cSW cRW) i
  = Some (r1 + r2 + water_ohmic_drop self cr + water_ohmic_drop self cs).
Proof.
  intros Hs Hr. unfold Rcell_profile.
  apply (map2_nth_error Rplus _ _ i (r1 + r2 + water_ohmic_drop self cr)
           (water_ohmic_drop self cs)).
  - rewrite !nth_error_map, Hr. reflexivity.
  - rewrite nth_error_map, Hs. reflexivity.
Qed.

Lemma J_profile_nth_error (self : CoFlow) (E Rcell : list R) (i : nat) (e r : R) :
  nth_error E i = Some e -> nth_error Rcell i = Some r ->
  nth_error (J_profile self E Rcell) i = Some ((e - Uload self) / r).
Proof.
  intros He Hr. unfold J_profile.
  apply (map2_nth_error Rdiv _ _ i (e - Uload self) r); [| assumption].
  rewrite nth_error_map, He. reflexivity.
Qed.

Lemma water_ohmic_drop_fresh (tRW tSW W L d : R) (m : MembraneAttrs)
    (Uload cRW0 cSW0 fSW fRW : R) (xs : list R) (C : R) :
  water_ohmic_drop
    (fresh_object tRW tSW W L d m Uload cRW0 cSW0 fSW fRW xs) C
  = 1.65 * d / (0.01287 * C).
Proof. reflexivity. Qed.

Lemma water_ohmic_drop_pos (d C : R) :
  0 < d -> 0 < C -> 0 < 1.65 * d / (0.01287 * C).
Proof.
  intros Hd HC. apply Rdiv_lt_0_compat.
  - apply Rmult_lt_0_compat; lra.
  - apply Rmult_lt_0_compat; lra.
Qed.

End ProfileFacts.

(** X13. The resistance of a water channel of a constructed stack with
    a positive channel thickness is positive for a positive
    concentration, inversely proportional to it (the product of the two
    is [1.65 * d / 0.01287]), and so strictly smaller at a larger
    concentration. *)
Theorem water_resistance_inverse_in_concentration (tRW tSW W L d : R)
    (membranes : string) (Uload cRW0 cSW0 : R) (intervals : Z)
    (self : model_class.CoFlow) :
  model_class.__init__ tRW tSW W L d membranes Uload cRW0 cSW0 intervals
  = Ok self ->
  0 < d ->
  forall C, 0 < C ->
    0 < model_class.water_ohmic_drop self C
    /\ model_class.water_ohmic_drop self C * C = 1.65 * d / 0.01287
    /\ forall C', C < C' ->
         model_class.water_ohmic_drop self C'
         < model_class.water_ohmic_drop self C.
Proof.
  intros Hinit Hd C HC.
  destruct (init_inv _ _ _ _ _ _ _ _ _ _ _ Hinit) as (xs & _ & ->).
  rewrite water_ohmic_drop_fresh.
  split; [apply water_ohmic_drop_pos; assumption |].
  split; [field; lra |].
  intros C' HC'. rewrite water_ohmic_drop_fresh.
  assert (HK : 0 < 1.65 * d / 0.01287)
    by (apply Rdiv_lt_0_compat; [apply Rmult_lt_0_compat |]; lra).
  replace (1.65 * d / (0.01287 * C')) with (1.65 * d / 0.01287 * / C')
    by (field; lra).
  replace (1.65 * d / (0.01287 * C)) with (1.65 * d / 0.01287 * / C)
    by (field; lra).
  apply Rmult_lt_compat_l; [assumption |].
  apply Rinv_lt_contravar; [| assumption].
  apply Rmult_lt_0_compat; lra.
Qed.

Lemma water_resistance_of_reference_stack :
  exists self,
    model_class.__init__ 22 22 0.22 0.22 100E-6 "Ideal CEM/AEM" 0.08 17.1 512 100
    = Ok self
    /\ 0 < model_class.water_ohmic_drop self 17.1
    /\ model_class.water_ohmic_drop self 17.1 * 17.1 = 1.65 * 100E-6 / 0.01287
    /\ model_class.water_ohmic_drop self 512
       < model_class.water_ohmic_drop self 17.1.
Proof.
  destruct (init_returns 22 22 0.22 0.22 100E-6 "Ideal CEM/AEM" 0.08 17.1 512 100)
    as (xs & _ & Hinit); [lra | lra | lia |].
  destruct (water_resistance_inverse_in_concentration _ _ _ _ _ _ _ _ _ _ _
              Hinit ltac:(lra) 17.1 ltac:(lra)) as (Hpos & Hprod & Hdec).
  eexists. split; [exact Hinit |]. split; [exact Hpos |].
  split; [exact Hprod | apply Hdec; lra].
Defined.

(** X14. In a solved stack with a positive channel thickness, at every
    domain point where both concentrations are positive the stored cell
    resistance is the two membrane resistances plus the two channel
    resistances, it exceeds the sum of the (positive) membrane
    resistances, and the stored current density obeys Ohm's law
    [J = (E - Uload) / Rcell]. *)
Theorem cell_resistance_and_current_density {scipy : Scipy}
    (tRW tSW W L d : R) (membranes : string) (Uload cRW0 cSW0 : R)
    (intervals : Z) (self self' : model_class.CoFlow) :
  model_class.__init__ tRW tSW W L d membranes Uload cRW0 cSW0 intervals
  = Ok self ->
  model_class.solve_system self = Ok self' ->
  0 < d ->
  exists r1 r2 cSWs cRWs Es Rs Js,
    model_class.Raem self = Some r1 /\ model_class.Rcem self = Some r2
    /\ 0 < r1 /\ 0 < r2
    /\ model_class.cSW self' = Some cSWs /\ model_class.cRW self' = Some cRWs
    /\ model_class.E self' = Some Es /\ model_class.Rcell self' = Some Rs
    /\ model_class.J self' = Some Js
    /\ forall i cs cr e,
         nth_error cSWs i = Some cs -> nth_error cRWs i = Some cr ->
         nth_error Es i = Some e -> 0 < cs -> 0 < cr ->
         exists r,
           nth_error Rs i = Some r
           /\ r = r1 + r2 + 1.65 * d / (0.01287 * cr) + 1.65 * d / (0.01287 * cs)
           /\ r1 + r2 < r
           /\ nth_error Js i = Some ((e - Uload) / r).
Proof.
  intros Hinit Hsolve Hd.
  destruct (init_inv _ _ _ _ _ _ _ _ _ _ _ Hinit) as (xs & _ & Hself).
  destruct (solve_system_inv _ _ Hsolve)
    as (sol & a0 & r1 & r2 & _ & _ & Ha & H1 & H2 & ->).
  assert (Hpos : 0 < r1 /\ 0 < r2).
  { rewrite Hself in H1, H2, Ha. simpl in H1, H2, Ha.
    destruct (select_membranes_cases membranes) as [Hm | [Hm | Hm]];
      rewrite Hm in H1, H2, Ha; simpl in H1, H2, Ha;
      try discriminate; injection H1 as <-; injection H2 as <-; split; lra. }
  destruct Hpos as (Hr1 & Hr2).
  exists r1, r2, (map fst sol), (map snd sol),
    (emf_profile self a0 (map fst sol) (map snd sol)),
    (Rcell_profile self r1 r2 (map fst sol) (map snd sol)),
    (J_profile self (emf_profile self a0 (map fst sol) (map snd sol))
       (Rcell_profile self r1 r2 (map fst sol) (map snd sol))).
  do 4 (split; [assumption |]).
  do 5 (split; [reflexivity |]).
  intros i cs cr e Hs Hr He Hcs Hcr.
  pose proof (Rcell_profile_nth_error self r1 r2 _ _ i cs cr Hs Hr) as HR.
  eexists. split; [exact HR |].
  assert (Hw : forall C, model_class.water_ohmic_drop self C
                         = 1.65 * d / (0.01287 * C))
    by (intros C; rewrite Hself; reflexivity).
  rewrite !Hw.
  split; [reflexivity |].
  pose proof (water_ohmic_drop_pos d cs Hd Hcs).
  pose proof (water_ohmic_drop_pos d cr Hd Hcr).
  split; [lra |].
  rewrite (J_profile_nth_error self _ _ i e _ He HR).
  rewrite !Hw. rewrite Hself. reflexivity.
Qed.

Lemma cell_resistance_of_reference_run :
  exists self self' r1 r2 Rs r,
    model_class.__init__ 22 22 0.22 0.22 100E-6 "Ideal CEM/AEM" 0.08 17.1 512 100
    = Ok self
    /\ model_class.solve_system (scipy := reference_scipy) self = Ok self'
    /\ model_class.Raem self = Some r1 /\ model_class.Rcem self = Some r2
    /\ model_class.Rcell self' = Some Rs
    /\ nth_error Rs 0 = Some r
    /\ r1 + r2 < r.
Proof.
  destruct (run_returns (laws := reference_scipy_laws)
              22 22 0.22 0.22 100E-6 "Ideal CEM/AEM" 0.08 17.1 512 100)
    as (xs & rows & a0 & q1 & q2 & self & _ & _ & Hinit & _ & _ & _ & _ & _
        & Hsolve);
    [lra | lra | lia | left; reflexivity |].
  destruct (cell_resistance_and_current_density (scipy := reference_scipy)
              _ _ _ _ _ _ _ _ _ _ _ _ Hinit Hsolve ltac:(lra))
    as (r1 & r2 & cSWs & cRWs & Es & Rs & Js & H1 & H2 & _ & _ & HS & HR & HE
        & HRs & _ & Hpt).
  simpl in HS, HR, HE. injection HS as <-. injection HR as <-. injection HE as <-.
  destruct (Hpt 0%nat 512 17.1 _ eq_refl eq_refl eq_refl ltac:(lra) ltac:(lra))
    as (r & Hr & _ & Hlt & _).
  exists self,
    (solved_object (scipy := reference_scipy) self a0 q1 q2 ((512, 17.1) :: rows)),
    r1, r2, Rs, r.
  repeat split; assumption.
Defined.

Lemma ratio_above_one (u v : R) : 0 < v -> (1 < u / v <-> v < u).
Proof.
  intros Hv. split; intros H.
  - assert (Hu : u = u / v * v) by (field; lra).
    rewrite Hu. revert H. generalize (u / v). intros q Hq. nra.
  - replace (u / v) with (1 + (u - v) / v) by (field; lra).
    assert (0 < (u - v) / v) by (apply Rdiv_lt_0_compat; lra). lra.
Qed.

Lemma ratio_below_one (u v : R) : 0 < v -> (u / v < 1 <-> u < v).
Proof.
  intros Hv. split; intros H.
  - assert (Hu : u = u / v * v) by (field; lra).
    rewrite Hu. revert H. generalize (u / v). intros q Hq. nra.
  - replace (u / v) with (1 - (v - u) / v) by (field; lra).
    assert (0 < (v - u) / v) by (apply Rdiv_lt_0_compat; lra). lra.
Qed.

Lemma ln_ratio_sign (u v : R) :
  0 < u -> 0 < v ->
  (0 < ln (u / v) <-> v < u) /\ (ln (u / v) < 0 <-> u < v).
Proof.
  intros Hu Hv. assert (Hq : 0 < u / v) by (apply Rdiv_lt_0_compat; assumption).
  split; split; intros H.
  - apply ratio_above_one; [assumption |].
    apply ln_lt_inv; [lra | assumption |]. now rewrite ln_1.
  - rewrite <- ln_1. apply ln_increasing; [lra |].
    apply ratio_above_one; assumption.
  - apply ratio_below_one; [assumption |].
    apply ln_lt_inv; [assumption | lra |]. now rewrite ln_1.
  - rewrite <- ln_1. apply ln_increasing; [assumption |].
    apply ratio_below_one; assumption.
Qed.

Lemma activity_pos (self : model_class.CoFlow) (c : R) :
  0 < c -> 0 < model_class.activity self c.
Proof.
  intros Hc. unfold model_class.activity, TCPC.TCPC.
  apply Rmult_lt_0_compat; [assumption | apply exp_pos].
Qed.

(** X15. In a solved stack, at every domain point where both
    concentrations are positive, the emf is positive exactly when the
    activity of the seawater exceeds that of the river water, and
    negative exactly when it is smaller. *)
Theorem emf_sign_follows_activities {scipy : Scipy} (tRW tSW W L d : R)
    (membranes : string) (Uload cRW0 cSW0 : R) (intervals : Z)
    (self self' : model_class.CoFlow) :
  model_class.__init__ tRW tSW W L d membranes Uload cRW0 cSW0 intervals
  = Ok self ->
  model_class.solve_system self = Ok self' ->
  exists cSWs cRWs Es,
    model_class.cSW self' = Some cSWs /\ model_class.cRW self' = Some cRWs
    /\ model_class.E self' = Some Es
    /\ forall i cs cr,
         nth_error cSWs i = Some cs -> nth_error cRWs i = Some cr ->
         0 < cs -> 0 < cr ->
         exists e,
           nth_error Es i = Some e
           /\ (0 < e <-> model_class.activity self cr < model_class.activity self cs)
           /\ (e < 0 <-> model_class.activity self cs < model_class.activity self cr).
Proof.
  intros Hinit Hsolve.
  destruct (init_inv _ _ _ _ _ _ _ _ _ _ _ Hinit) as (xs & _ & Hself).
  destruct (solve_system_inv _ _ Hsolve)
    as (sol & a0 & r1 & r2 & _ & _ & Ha & _ & _ & ->).
  assert (Hpre : 0 < a0 * 2 * model_class.Rgas self * model_class.Temp self
                     / model_class.Fad self).
  { rewrite Hself in Ha |- *. simpl in Ha |- *.
    destruct (select_membranes_cases membranes) as [Hm | [Hm | Hm]];
      rewrite Hm in Ha; simpl in Ha; try discriminate; injection Ha as <-; lra. }
  exists (map fst sol), (map snd sol),
    (emf_profile self a0 (map fst sol) (map snd sol)).
  do 3 (split; [reflexivity |]).
  intros i cs cr Hs Hr Hcs Hcr.
  eexists. split; [apply (emf_profile_nth_error self a0 _ _ i cs cr Hs Hr) |].
  pose proof (activity_pos self cs Hcs) as HaS.
  pose proof (activity_pos self cr Hcr) as HaR.
  destruct (ln_ratio_sign _ _ HaS HaR) as (Hp & Hn).
  set (pre := a0 * 2 * model_class.Rgas self * model_class.Temp self
              / model_class.Fad self) in *.
  set (l := ln (model_class.activity self cs / model_class.activity self cr)) in *.
  split; split; intros H.
  - apply Hp. apply (Rmult_lt_reg_l pre); [assumption |]. now rewrite Rmult_0_r.
  - apply Rmult_lt_0_compat; [assumption | now apply Hp].
  - apply Hn. apply (Rmult_lt_reg_l pre); [assumption |]. now rewrite Rmult_0_r.
  - rewrite <- (Rmult_0_r pre). apply Rmult_lt_compat_l; [assumption | now apply Hn].
Qed.

Lemma emf_sign_of_reference_run :
  exists self self' Es e,
    model_class.__init__ 22 22 0.22 0.22 100E-6 "Ideal CEM/AEM" 0.08 17.1 512 100
    = Ok self
    /\ model_class.solve_system (scipy := reference_scipy) self = Ok self'
    /\ model_class.E self' = Some Es
    /\ nth_error Es 0 = Some e
    /\ (0 < e <-> model_class.activity self 17.1 < model_class.activity self 512).
Proof.
  destruct (run_returns (laws := reference_scipy_laws)
              22 22 0.22 0.22 100E-6 "Ideal CEM/AEM" 0.08 17.1 512 100)
    as (xs & rows & a0 & q1 & q2 & self & _ & _ & Hinit & _ & _ & _ & _ & _
        & Hsolve);
    [lra | lra | lia | left; reflexivity |].
  destruct (emf_sign_follows_activities (scipy := reference_scipy)
              _ _ _ _ _ _ _ _ _ _ _ _ Hinit Hsolve)
    as (cSWs & cRWs & Es & HS & HR & HE & Hpt).
  simpl in HS, HR. injection HS as <-. injection HR as <-.
  destruct (Hpt 0%nat 512 17.1 eq_refl eq_refl ltac:(lra) ltac:(lra))
    as (e & He & Hpos & _).
  exists self,
    (solved_object (scipy := reference_scipy) self a0 q1 q2 ((512, 17.1) :: rows)),
    Es, e.
  repeat split; try assumption; apply Hpos.
Defined.

(** ** Power density and power *)

(** X16. [power_density] combines [E] and [Rcell] element by element:
    two arrays of different lengths, both of at least two points, raise
    [ValueError] before anything is integrated. *)
Theorem power_density_shapes {scipy : Scipy} (U : R) (E Rcell : list R)
    (W L : R) (xs : list R) :
  (2 <= length E)%nat -> (2 <= length Rcell)%nat ->
  length E <> length Rcell ->
  coFlow_NaCl_outputs.power_density U E Rcell W L xs = Raise ValueError.
Proof.
  unfold coFlow_NaCl_outputs.power_density, np_binop.
  intros HE HR Hne. rewrite length_map.
  destruct (Nat.eqb_spec (length E) (length Rcell)) as [Heq | _];
    [contradiction |].
  destruct E as [| e0 [| e1 E]]; simpl in HE; try lia.
  destruct Rcell as [| r0 [| r1 Rcell]]; simpl in HR; try lia.
  reflexivity.
Qed.

Lemma power_density_of_three_and_two_points :
  coFlow_NaCl_outputs.power_density (scipy := reference_scipy)
    0.08 [0.15; 0.14; 0.13] [2E-3; 2E-3] 0.22 0.22 [0; 0.11; 0.22]
  = Raise ValueError.
Proof.
  apply (power_density_shapes (scipy := reference_scipy) 0.08
           [0.15; 0.14; 0.13] [2E-3; 2E-3] 0.22 0.22 [0; 0.11; 0.22]);
    simpl; lia.
Defined.

Lemma div_nonneg (u v : R) : 0 <= u -> 0 < v -> 0 <= u / v.
Proof.
  intros Hu Hv. unfold Rdiv. apply Rmult_le_pos; [assumption |].
  left. apply Rinv_0_lt_compat. assumption.
Qed.

Lemma matched_load_bound (e U r : R) :
  0 < r ->
  (e * U - U ^ 2) / r <= e ^ 2 / (4 * r)
  /\ (0 <= U <= e -> 0 <= (e * U - U ^ 2) / r)
  /\ (U = e / 2 -> (e * U - U ^ 2) / r = e ^ 2 / (4 * r)).
Proof.
  intros Hr. split; [| split].
  - assert (H : e ^ 2 / (4 * r) - (e * U - U ^ 2) / r
                = (e - 2 * U) ^ 2 / (4 * r)) by (field; lra).
    assert (0 <= (e - 2 * U) ^ 2 / (4 * r)).
    { apply div_nonneg; [apply pow2_ge_0 | lra]. }
    lra.
  - intros (H0 & H1). apply div_nonneg; [| assumption]. nra.
  - intros ->. field. lra.
Qed.

(** X17. For non-empty [E], [Rcell] and [x] of one length and a
    positive cell resistance, the power density at a point never
    exceeds the matched-load value [E ^ 2 / (4 Rcell)], which is reached
    at [Uload = E / 2], and it is non-negative whenever the load voltage
    lies between 0 and the emf. *)
Theorem power_density_pointwise_bounds {scipy : Scipy} (U : R)
    (E Rcell : list R) (W L : R) (xs : list R) :
  E <> [] -> length E = length Rcell -> length xs = length E ->
  exists Pd,
    coFlow_NaCl_outputs.power_density U E Rcell W L xs
    = Ok (simps Pd xs / (2 * L) * (2 * W * L), simps Pd xs / (2 * L))
    /\ forall i e r,
         nth_error E i = Some e -> nth_error Rcell i = Some r -> 0 < r ->
         exists p,
           nth_error Pd i = Some p
           /\ p <= e ^ 2 / (4 * r)
           /\ (0 <= U <= e -> 0 <= p)
           /\ (U = e / 2 -> p = e ^ 2 / (4 * r)).
Proof.
  intros _ Hlen _. exists (Pd_profile U E Rcell).
  split; [apply power_density_returns; assumption |].
  intros i e r He Hr Hpos. exists ((e * U - U ^ 2) / r). split.
  - unfold Pd_profile.
    apply (map2_nth_error Rdiv _ _ i (e * U - U ^ 2) r); [| assumption].
    rewrite nth_error_map, He. reflexivity.
  - apply matched_load_bound. assumption.
Qed.

Lemma power_density_bounds_three_points :
  exists Pd p,
    coFlow_NaCl_outputs.power_density (scipy := reference_scipy)
      0.08 [0.16; 0.14; 0.13] [2E-3; 2E-3; 2E-3] 0.22 0.22 [0; 0.11; 0.22]
    = Ok (simpson Pd [0; 0.11; 0.22] / (2 * 0.22) * (2 * 0.22 * 0.22),
          simpson Pd [0; 0.11; 0.22] / (2 * 0.22))
    /\ nth_error Pd 0 = Some p
    /\ p = 0.16 ^ 2 / (4 * 2E-3)
    /\ 0 <= p.
Proof.
  destruct (power_density_pointwise_bounds (scipy := reference_scipy) 0.08
              [0.16; 0.14; 0.13] [2E-3; 2E-3; 2E-3] 0.22 0.22 [0; 0.11; 0.22]
              ltac:(discriminate) eq_refl eq_refl) as (Pd & Hret & Hpt).
  destruct (Hpt 0%nat 0.16 2E-3 eq_refl eq_refl ltac:(lra))
    as (p & Hp & _ & Hnonneg & Hmax).
  exists Pd, p. split; [exact Hret |]. split; [exact Hp |].
  split; [apply Hmax; lra | apply Hnonneg; lra].
Defined.

(** ** Power and current *)

Lemma Pd_profile_is_load_times_J (self : model_class.CoFlow) (E Rcell : list R) :
  Pd_profile (model_class.Uload self) E Rcell
  = map (Rmult (model_class.Uload self)) (J_profile self E Rcell).
Proof.
  unfold Pd_profile, J_profile. revert Rcell.
  induction E as [| e E IH]; intros [| r Rcell]; try reflexivity.
  simpl. rewrite IH. f_equal. unfold Rdiv. ring.
Qed.

Lemma list_two_step_ind {A : Type} (P : list A -> Prop) :
  P [] -> (forall a, P [a]) -> (forall a b l, P l -> P (a :: b :: l)) ->
  forall l, P l.
Proof.
  intros H0 H1 H2 l.
  assert (H : P l /\ forall a, P (a :: l)).
  { induction l as [| b l (IHl & IHc)]; [split; [exact H0 | exact H1] |].
    split; [apply IHc |]. intros a. apply H2. exact IHl. }
  exact (proj1 H).
Qed.

Lemma basic_simps_step (y0 y1 y2 x0 x1 x2 : R) (y x : list R) :
  basic_simps (y0 :: y1 :: y2 :: y) (x0 :: x1 :: x2 :: x)
  = (x1 - x0 + (x2 - x1)) / 6
    * (y0 * (2 - 1 / ((x1 - x0) / (x2 - x1)))
       + y1 * (x1 - x0 + (x2 - x1)) * (x1 - x0 + (x2 - x1))
         / ((x1 - x0) * (x2 - x1))
       + y2 * (2 - (x1 - x0) / (x2 - x1)))
    + basic_simps (y2 :: y) (x2 :: x).
Proof. reflexivity. Qed.

Lemma basic_simps_scaled (k : R) (y x : list R) :
  basic_simps (map (Rmult k) y) x = k * basic_simps y x.
Proof.
  revert x. induction y as [| a | a b l IH] using list_two_step_ind; intros x.
  - simpl. ring.
  - simpl. ring.
  - destruct l as [| c l]; [simpl; ring |].
    destruct x as [| x0 [| x1 [| x2 x]]]; try (simpl; ring).
    change (map (Rmult k) (a :: b :: c :: l))
      with (k * a :: k * b :: k * c :: map (Rmult k) l).
    rewrite !basic_simps_step.
    change (k * c :: map (Rmult k) l) with (map (Rmult k) (c :: l)).
    rewrite IH. unfold Rdiv. ring.
Qed.

Lemma removelast_map {A B : Type} (f : A -> B) (l : list A) :
  removelast (map f l) = map f (removelast l).
Proof.
  induction l as [| a l IH]; [reflexivity |].
  destruct l as [| b l]; [reflexivity |].
  change (removelast (map f (a :: b :: l)))
    with (f a :: removelast (map f (b :: l))).
  rewrite IH. reflexivity.
Qed.

Lemma last_map_scaled (k : R) (l : list R) :
  l <> [] -> last (map (Rmult k) l) 0 = k * last l 0.
Proof.
  induction l as [| a l IH]; [contradiction |]. intros _.
  destruct l as [| b l]; [reflexivity |].
  change (last (map (Rmult k) (a :: b :: l)) 0)
    with (last (map (Rmult k) (b :: l)) 0).
  change (last (a :: b :: l) 0) with (last (b :: l) 0).
  apply IH. discriminate.
Qed.

Lemma simpson_homogeneous : simps_homogeneous reference_scipy.
Proof.
  intros k y x. simpl. unfold simpson. rewrite length_map.
  destruct (Nat.even (length y)); [| apply basic_simps_scaled].
  destruct y as [| y0 [| y1 y]]; [simpl; ring | simpl; ring |].
  destruct x as [| x0 [| x1 x]]; [simpl; ring | simpl; ring |].
  change (map (Rmult k) (y0 :: y1 :: y))
    with (k * y0 :: k * y1 :: map (Rmult k) y).
  cbv beta iota.
  change (k * y0 :: k * y1 :: map (Rmult k) y)
    with (map (Rmult k) (y0 :: y1 :: y)).
  rewrite removelast_map.
  change (tl (map (Rmult k) (y0 :: y1 :: y))) with (map (Rmult k) (y1 :: y)).
  cbn [tl].
  rewrite !basic_simps_scaled.
  rewrite !last_map_scaled by discriminate.
  unfold Rdiv. ring.
Qed.

(** X18. The power stored by [solve_system] is the load voltage times
    the current that [current] computes from the stored current
    density, for a stack of non-zero length and an integration rule
    that commutes with multiplication by a constant: the power density
    at each point is [Uload * J]. *)
Theorem power_is_load_voltage_times_current {scipy : Scipy}
    (self self' : model_class.CoFlow) :
  simps_homogeneous scipy ->
  model_class.solve_system self = Ok self' ->
  model_class.L self <> 0 ->
  exists P Js,
    model_class.power self' = Some P
    /\ model_class.J self' = Some Js
    /\ P = model_class.Uload self
           * coFlow_NaCl_outputs.current Js (model_class.W self)
               (model_class.x self).
Proof.
  intros Hh Hsolve HL.
  destruct (solve_system_inv _ _ Hsolve)
    as (sol & a0 & r1 & r2 & _ & _ & _ & _ & _ & ->).
  unfold solved_object.
  cbn [model_class.with_solution model_class.power model_class.J].
  do 2 eexists. split; [reflexivity |]. split; [reflexivity |].
  rewrite Pd_profile_is_load_times_J, Hh.
  unfold coFlow_NaCl_outputs.current. field. assumption.
Qed.

Lemma power_of_reference_run :
  exists self self' P Js,
    model_class.__init__ 22 22 0.22 0.22 100E-6 "Ideal CEM/AEM" 0.08 17.1 512 100
    = Ok self
    /\ model_class.solve_system (scipy := reference_scipy) self = Ok self'
    /\ model_class.power self' = Some P
    /\ model_class.J self' = Some Js
    /\ P = 0.08 * coFlow_NaCl_outputs.current (scipy := reference_scipy) Js 0.22
                    (model_class.x self).
Proof.
  destruct (run_returns (laws := reference_scipy_laws)
              22 22 0.22 0.22 100E-6 "Ideal CEM/AEM" 0.08 17.1 512 100)
    as (xs & rows & a0 & q1 & q2 & self & _ & Hself & Hinit & _ & _ & _ & _ & _
        & Hsolve);
    [lra | lra | lia | left; reflexivity |].
  assert (HL : model_class.L self <> 0) by (rewrite Hself; simpl; lra).
  destruct (power_is_load_voltage_times_current (scipy := reference_scipy)
              self _ simpson_homogeneous Hsolve HL) as (P & Js & HP & HJ & Heq).
  exists self,
    (solved_object (scipy := reference_scipy) self a0 q1 q2 ((512, 17.1) :: rows)),
    P, Js.
  split; [exact Hinit |]. split; [exact Hsolve |]. split; [exact HP |].
  split; [exact HJ |]. rewrite Heq, Hself. reflexivity.
Defined.

(** ** The right-hand side with ideal membranes *)


Lemma ideal_derivatives_algebra (W fS fR F Rc Hm Vw E U cs cr : R) :
  fS <> 0 -> fR <> 0 -> F <> 0 -> Rc <> 0 -> Hm <> 0 ->
  - W * ((E - U) / Rc / F + (cs - cr) * 2 * 0 / Hm) / fS
  + W * cs * (- (cs - cr) * 2 * 0 * Vw / Hm + 0 * Vw * ((E - U) / Rc) / F) / fS
  = - (W / (fS * F * Rc) * (E - U))
  /\ W * ((E - U) / Rc / F + (cs - cr) * 2 * 0 / Hm) / fR
     - W * cr * (- (cs - cr) * 2 * 0 * Vw / Hm + 0 * Vw * ((E - U) / Rc) / F) / fR
     = W / (fR * F * Rc) * (E - U).
Proof.
  intros HS HR HF HRc HHm. split; field; repeat split; assumption.
Qed.

Lemma flow_rate_pos (L W d t : R) :
  0 < L -> 0 < W -> 0 < d -> 0 < t -> 0 < L * W * d / t.
Proof.
  intros HL HW Hd Ht. apply Rdiv_lt_0_compat; [| assumption].
  repeat apply Rmult_lt_0_compat; assumption.
Qed.



(** X20. With the ideal membranes, positive geometry, residence times
    and concentrations, the direction of the salt transfer is decided
    by the load voltage against the Nernst emf [E] of the state: below
    [E] the seawater concentration falls and the river-water
    concentration rises along the flow path, at [E] (open circuit)
    nothing is transferred, above [E] the transfer is reversed. *)
Theorem ideal_membranes_transfer_direction (tRW tSW W L d Uload cRW0 cSW0 : R)
    (intervals : Z) (self : model_class.CoFlow) :
  model_class.__init__ tRW tSW W L d "Ideal CEM/AEM" Uload cRW0 cSW0 intervals
  = Ok self ->
  0 < tRW -> 0 < tSW -> 0 < W -> 0 < L -> 0 < d ->
  forall cs cr t, 0 < cs -> 0 < cr ->
    let E := 0.90 * 2 * 8.3143 * 298.0 / 96485.0
             * ln (model_class.activity self cs / model_class.activity self cr) in
    exists dS dR,
      model_class.dQdx self (cs, cr) t = Ok (dS, dR)
      /\ (Uload < E -> dS < 0 /\ 0 < dR)
      /\ (Uload = E -> dS = 0 /\ dR = 0)
      /\ (E < Uload -> 0 < dS /\ dR < 0).
Proof.
  intros Hinit HtR HtS HW HL Hd cs cr t Hcs Hcr E.
  destruct (init_inv _ _ _ _ _ _ _ _ _ _ _ Hinit) as (xs & _ & Hself).
  pose proof (flow_rate_pos L W d tSW HL HW Hd HtS) as HfS.
  pose proof (flow_rate_pos L W d tRW HL HW Hd HtR) as HfR.
  pose proof (water_ohmic_drop_pos d cs Hd Hcs) as HrS.
  pose proof (water_ohmic_drop_pos d cr Hd Hcr) as HrR.
  set (Rc := 1.0E-4 + 1.0E-4 + 1.65 * d / (0.01287 * cr)
             + 1.65 * d / (0.01287 * cs)).
  assert (HRc : 0 < Rc).
  { unfold Rc. revert HrS HrR.
    generalize (1.65 * d / (0.01287 * cs)), (1.65 * d / (0.01287 * cr)).
    intros u v Hu Hv. lra. }
  assert (HE : E = 0.90 * 2 * 8.3143 * 298.0 / 96485.0
                   * ln (model_class.activity self cs
                         / model_class.activity self cr)) by reflexivity.
  clearbody E. rewrite Hself in HE |- *.
  destruct (ideal_derivatives_algebra W (L * W * d / tSW) (L * W * d / tRW)
              96485.0 Rc 80E-6 18E-6 E Uload cs cr) as (HdS & HdR);
    try lra.
  exists (- (W / (L * W * d / tSW * 96485.0 * Rc) * (E - Uload))),
    (W / (L * W * d / tRW * 96485.0 * Rc) * (E - Uload)).
  split.
  { rewrite <- HdS, <- HdR, HE. reflexivity. }
  assert (HkS : 0 < W / (L * W * d / tSW * 96485.0 * Rc)).
  { apply Rdiv_lt_0_compat; [assumption |].
    apply Rmult_lt_0_compat; [apply Rmult_lt_0_compat; [exact HfS | lra] |].
    exact HRc. }
  assert (HkR : 0 < W / (L * W * d / tRW * 96485.0 * Rc)).
  { apply Rdiv_lt_0_compat; [assumption |].
    apply Rmult_lt_0_compat; [apply Rmult_lt_0_compat; [exact HfR | lra] |].
    exact HRc. }
  revert HkS HkR.
  generalize (W / (L * W * d / tSW * 96485.0 * Rc)).
  generalize (W / (L * W * d / tRW * 96485.0 * Rc)).
  intros kR kS HkS HkR. clear HdS HdR.
  split; [| split].
  - intros H. split; nra.
  - intros H. rewrite H. split; ring.
  - intros H. split; nra.
Qed.

Lemma ideal_membranes_transfer_at_equal_concentrations :
  exists self dS dR,
    model_class.__init__ 22 22 0.22 0.22 100E-6 "Ideal CEM/AEM" (-0.05) 512 512 100
    = Ok self
    /\ model_class.dQdx self (512, 512) 0 = Ok (dS, dR)
    /\ dS < 0 /\ 0 < dR.
Proof.
  destruct (init_returns 22 22 0.22 0.22 100E-6 "Ideal CEM/AEM" (-0.05) 512 512 100)
    as (xs & _ & Hinit); [lra | lra | lia |].
  destruct (ideal_membranes_transfer_direction _ _ _ _ _ _ _ _ _ _ Hinit
              ltac:(lra) ltac:(lra) ltac:(lra) ltac:(lra) ltac:(lra)
              512 512 0 ltac:(lra) ltac:(lra))
    as (dS & dR & Hrhs & Hbelow & _ & _).
  eexists. exists dS, dR. split; [exact Hinit |]. split; [exact Hrhs |].
  apply Hbelow. rewrite nernst_equal_activities by lra. lra.
Defined.

(** ** The width of the stack *)

Lemma width_cancels_SW (W1 W2 L d t Tn cs Tw : R) :
  W1 <> 0 -> W2 <> 0 -> L <> 0 -> d <> 0 -> t <> 0 ->
  - W1 * Tn / (L * W1 * d / t) + W1 * cs * Tw / (L * W1 * d / t)
  = - W2 * Tn / (L * W2 * d / t) + W2 * cs * Tw / (L * W2 * d / t).
Proof. intros. field. repeat split; assumption. Qed.

Lemma width_cancels_RW (W1 W2 L d t Tn cr Tw : R) :
  W1 <> 0 -> W2 <> 0 -> L <> 0 -> d <> 0 -> t <> 0 ->
  W1 * Tn / (L * W1 * d / t) - W1 * cr * Tw / (L * W1 * d / t)
  = W2 * Tn / (L * W2 * d / t) - W2 * cr * Tw / (L * W2 * d / t).
Proof. intros. field. repeat split; assumption. Qed.

Lemma dQdx_independent_of_width (tRW tSW W1 W2 L d : R) (m : model_class.MembraneAttrs)
    (Uload cRW0 cSW0 : R) (xs : list R) (Q : R * R) (t : R) :
  W1 <> 0 -> W2 <> 0 -> L <> 0 -> d <> 0 -> tRW <> 0 -> tSW <> 0 ->
  model_class.dQdx
    (model_class.fresh_object tRW tSW W1 L d m Uload cRW0 cSW0
       (L * W1 * d / tSW) (L * W1 * d / tRW) xs) Q t
  = model_class.dQdx
      (model_class.fresh_object tRW tSW W2 L d m Uload cRW0 cSW0
         (L * W2 * d / tSW) (L * W2 * d / tRW) xs) Q t.
Proof.
  intros H1 H2 HL Hd HR HS. destruct Q as [cs cr].
  destruct m as [mRaem mRcem ma mDnacl mDw mHm mKeosm].
  unfold model_class.dQdx. simpl.
  destruct ma; [| reflexivity]. destruct mRaem; [| reflexivity].
  destruct mRcem; [| reflexivity]. destruct mDnacl; [| reflexivity].
  destruct mHm; [| reflexivity]. destruct mDw; [| reflexivity].
  destruct mKeosm; [| reflexivity].
  simpl. f_equal. f_equal.
  - apply width_cancels_SW; assumption.
  - apply width_cancels_RW; assumption.
Qed.

(** X21. The width [W] of the stack cancels in the right-hand side of
    the ODE (the flow rates are proportional to it): two stacks that
    differ only in a non-zero width have the same [dQdx], hence the
    same solved concentration, emf, resistance and current-density
    profiles and the same average power density; the power is
    proportional to the width. *)
Theorem width_only_scales_power {scipy : Scipy} (tRW tSW W1 W2 L d : R)
    (membranes : string) (Uload cRW0 cSW0 : R) (intervals : Z)
    (self1 self2 s1 : model_class.CoFlow) :
  model_class.__init__ tRW tSW W1 L d membranes Uload cRW0 cSW0 intervals
  = Ok self1 ->
  model_class.__init__ tRW tSW W2 L d membranes Uload cRW0 cSW0 intervals
  = Ok self2 ->
  W1 <> 0 -> W2 <> 0 -> L <> 0 -> d <> 0 ->
  (forall Q t, model_class.dQdx self1 Q t = model_class.dQdx self2 Q t)
  /\ (model_class.solve_system self1 = Ok s1 ->
      exists s2 P1 P2,
        model_class.solve_system self2 = Ok s2
        /\ model_class.cSW s2 = model_class.cSW s1
        /\ model_class.cRW s2 = model_class.cRW s1
        /\ model_class.E s2 = model_class.E s1
        /\ model_class.Rcell s2 = model_class.Rcell s1
        /\ model_class.J s2 = model_class.J s1
        /\ model_class.pd_avg s2 = model_class.pd_avg s1
        /\ model_class.power s1 = Some P1 /\ model_class.power s2 = Some P2
        /\ P2 * W1 = P1 * W2).
Proof.
  intros Hi1 Hi2 H1 H2 HL Hd.
  assert (Ht : tSW <> 0 /\ tRW <> 0).
  { unfold model_class.__init__, py_truediv in Hi1.
    destruct (Req_dec_T tSW 0); [discriminate |].
    destruct (Req_dec_T tRW 0); [discriminate |]. split; assumption. }
  destruct Ht as (HtS & HtR).
  destruct (init_inv _ _ _ _ _ _ _ _ _ _ _ Hi1) as (xs & Hxs & ->).
  destruct (init_inv _ _ _ _ _ _ _ _ _ _ _ Hi2) as (xs' & Hxs' & ->).
  rewrite Hxs in Hxs'. injection Hxs' as <-.
  assert (Hrhs : forall Q t,
    model_class.dQdx
      (model_class.fresh_object tRW tSW W1 L d
         (model_class.select_membranes membranes) Uload cRW0 cSW0
         (L * W1 * d / tSW) (L * W1 * d / tRW) xs) Q t
    = model_class.dQdx
        (model_class.fresh_object tRW tSW W2 L d
           (model_class.select_membranes membranes) Uload cRW0 cSW0
           (L * W2 * d / tSW) (L * W2 * d / tRW) xs) Q t)
    by (intros Q t; apply dQdx_independent_of_width; assumption).
  split; [exact Hrhs |].
  intros Hsolve.
  destruct (solve_system_inv _ _ Hsolve)
    as (sol & a0 & r1 & r2 & Hode & Hne & Ha & Hr1 & Hr2 & ->).
  set (self1 := model_class.fresh_object tRW tSW W1 L d _ _ _ _ _ _ _) in *.
  set (self2 := model_class.fresh_object tRW tSW W2 L d
                  (model_class.select_membranes membranes) Uload cRW0 cSW0
                  (L * W2 * d / tSW) (L * W2 * d / tRW) xs) in *.
  assert (Hfun : model_class.dQdx self1 = model_class.dQdx self2).
  { extensionality Q. extensionality t. apply Hrhs. }
  assert (Hode2 : odeint (model_class.dQdx self2) (model_class.Qzero self2)
                    (model_class.x self2) = Ok sol).
  { rewrite <- Hfun. exact Hode. }
  exists (solved_object self2 a0 r1 r2 sol).
  do 2 eexists.
  split; [apply solve_system_returns; assumption |].
  do 6 (split; [reflexivity |]).
  split; [reflexivity |]. split; [reflexivity |].
  change (simps
            (Pd_profile (model_class.Uload self2)
               (emf_profile self2 a0 (map fst sol) (map snd sol))
               (Rcell_profile self2 r1 r2 (map fst sol) (map snd sol)))
            (model_class.x self2))
    with (simps
            (Pd_profile (model_class.Uload self1)
               (emf_profile self1 a0 (map fst sol) (map snd sol))
               (Rcell_profile self1 r1 r2 (map fst sol) (map snd sol)))
            (model_class.x self1)).
  generalize (simps
                (Pd_profile (model_class.Uload self1)
                   (emf_profile self1 a0 (map fst sol) (map snd sol))
                   (Rcell_profile self1 r1 r2 (map fst sol) (map snd sol)))
                (model_class.x self1)).
  intros I.
  change (model_class.L self2) with L. change (model_class.L self1) with L.
  change (model_class.W self2) with W2. change (model_class.W self1) with W1.
  unfold Rdiv. ring.
Qed.

Lemma width_of_reference_run_doubled :
  exists self1 self2 s1 s2 P1 P2,
    model_class.__init__ 22 22 0.22 0.22 100E-6 "Ideal CEM/AEM" 0.08 17.1 512 100
    = Ok self1
    /\ model_class.__init__ 22 22 0.44 0.22 100E-6 "Ideal CEM/AEM" 0.08 17.1 512 100
       = Ok self2
    /\ model_class.solve_system (scipy := reference_scipy) self1 = Ok s1
    /\ model_class.solve_system (scipy := reference_scipy) self2 = Ok s2
    /\ model_class.cSW s2 = model_class.cSW s1
    /\ model_class.pd_avg s2 = model_class.pd_avg s1
    /\ model_class.power s1 = Some P1 /\ model_class.power s2 = Some P2
    /\ P2 * 0.22 = P1 * 0.44.
Proof.
  destruct (run_returns (laws := reference_scipy_laws)
              22 22 0.22 0.22 100E-6 "Ideal CEM/AEM" 0.08 17.1 512 100)
    as (xs & rows & a0 & q1 & q2 & self1 & _ & _ & Hi1 & _ & _ & _ & _ & _
        & Hsolve);
    [lra | lra | lia | left; reflexivity |].
  destruct (init_returns 22 22 0.44 0.22 100E-6 "Ideal CEM/AEM" 0.08 17.1 512 100)
    as (xs' & _ & Hi2); [lra | lra | lia |].
  destruct (width_only_scales_power (scipy := reference_scipy)
              _ _ _ _ _ _ _ _ _ _ _ _ _
              (solved_object (scipy := reference_scipy) self1 a0 q1 q2
                 ((512, 17.1) :: rows))
              Hi1 Hi2
              ltac:(lra) ltac:(lra) ltac:(lra) ltac:(lra)) as (_ & Hw).
  destruct (Hw Hsolve)
    as (s2 & P1 & P2 & Hs2 & HS & _ & _ & _ & _ & Hpd & HP1 & HP2 & Hprop).
  eexists self1, _, _, s2, P1, P2.
  split; [exact Hi1 |]. split; [exact Hi2 |]. split; [exact Hsolve |].
  split; [exact Hs2 |]. split; [exact HS |]. split; [exact Hpd |].
  split; [exact HP1 |]. split; [exact HP2 | exact Hprop].
Defined.

(** ** Solving twice *)

(** X22. [solve_system] reads neither the [solved] flag nor the result
    attributes, and changes none of the configuration attributes: a
    second call on the solved object raises nothing and leaves the
    object exactly as the first call left it. *)
Theorem solve_system_twice {scipy : Scipy} (self self' : model_class.CoFlow) :
  model_class.solve_system self = Ok self' ->
  model_class.solve_system self' = Ok self'
  /\ model_class.solved self' = true
  /\ model_class.x self' = model_class.x self
  /\ model_class.Qzero self' = model_class.Qzero self
  /\ model_class.Uload self' = model_class.Uload self.
Proof.
  intros Hsolve.
  destruct (solve_system_inv _ _ Hsolve)
    as (sol & a0 & r1 & r2 & Hode & Hne & Ha & Hr1 & Hr2 & ->).
  split; [| repeat split].
  rewrite (solve_system_returns (solved_object self a0 r1 r2 sol) a0 r1 r2 sol);
    try assumption; reflexivity.
Qed.

Lemma solve_system_twice_reference :
  exists self self',
    model_class.__init__ 22 22 0.22 0.22 100E-6 "Ideal CEM/AEM" 0.08 17.1 512 100
    = Ok self
    /\ model_class.solve_system (scipy := reference_scipy) self = Ok self'
    /\ model_class.solve_system (scipy := reference_scipy) self' = Ok self'.
Proof.
  destruct (run_returns (laws := reference_scipy_laws)
              22 22 0.22 0.22 100E-6 "Ideal CEM/AEM" 0.08 17.1 512 100)
    as (xs & rows & a0 & q1 & q2 & self & _ & _ & Hinit & _ & _ & _ & _ & _
        & Hsolve);
    [lra | lra | lia | left; reflexivity |].
  destruct (solve_system_twice (scipy := reference_scipy) _ _ Hsolve)
    as (Htwice & _).
  exists self,
    (solved_object (scipy := reference_scipy) self a0 q1 q2 ((512, 17.1) :: rows)). split; [exact Hinit |]. split; [exact Hsolve | exact Htwice].
Defined.

(** ** No gradient, no load *)

Lemma map2_repeat {A B C : Type} (f : A -> B -> C) (a : A) (b : B) (n : nat) :
  map2 f (repeat a n) (repeat b n) = repeat (f a b) n.
Proof.
  induction n as [| n IH]; [reflexivity |]. simpl. now rewrite IH.
Qed.

Lemma J_profile_at_rest (self : model_class.CoFlow) (r1 r2 c : R) (n : nat) :
  model_class.Uload self = 0 ->
  J_profile self (repeat 0 n)
    (Rcell_profile self r1 r2 (repeat c n) (repeat c n))
  = repeat 0 n.
Proof.
  intros HU. unfold J_profile, Rcell_profile.
  rewrite !map_repeat, !map2_repeat, HU. f_equal. unfold Rdiv. ring.
Qed.

(** X23. A valid stack fed with the same positive concentration on both
    sides and left without load produces nothing: the stored current
    density is 0 at every domain point, and (for an integration rule
    that commutes with multiplication by a constant) the current, the
    average emf, the average power density and the power are all 0. *)
Theorem no_gradient_no_power {scipy : Scipy} {laws : ScipyLaws scipy}
    (tRW tSW W L d : R) (membranes : string) (c : R) (intervals : Z) :
  simps_homogeneous scipy ->
  valid_configuration tRW tSW W L d membranes intervals -> 0 < c ->
  exists self self',
    model_class.__init__ tRW tSW W L d membranes 0 c c intervals = Ok self
    /\ model_class.solve_system self = Ok self'
    /\ model_class.J self' = Some (repeat 0 (Z.to_nat intervals))
    /\ coFlow_NaCl_outputs.current (repeat 0 (Z.to_nat intervals)) W
         (model_class.x self') = 0
    /\ model_class.E self' = Some (repeat 0 (Z.to_nat intervals))
    /\ coFlow_NaCl_outputs.E_average (repeat 0 (Z.to_nat intervals)) L
         (model_class.x self') = 0
    /\ model_class.pd_avg self' = Some 0
    /\ model_class.power self' = Some 0.
Proof.
  intros Hh (HR & HS & HW & HL & Hd & Hk & Hn) Hc.
  destruct (init_returns tRW tSW W L d membranes 0 c c intervals)
    as (xs & Hxs & Hinit); try lra; try lia.
  pose proof (linspace_length _ _ _ _ Hxs) as Hlen.
  destruct xs as [| t0 ts]; [simpl in Hlen; lia |].
  set (self := model_class.fresh_object tRW tSW W L d
                 (model_class.select_membranes membranes) 0 c c
                 (L * W * d / tSW) (L * W * d / tRW) (t0 :: ts)) in *.
  assert (Hm : membrane_assigned self)
    by (apply fresh_object_assigned; assumption).
  assert (Hrhs : forall t, model_class.dQdx self (c, c) t = Ok (0, 0))
    by (apply dQdx_equal_concentrations; [assumption | reflexivity | lra]).
  pose proof (odeint_equilibrium (model_class.dQdx self) (c, c) t0 ts Hrhs)
    as Hode.
  assert (Hrep : Datatypes.S (length ts) = Z.to_nat intervals)
    by (simpl in Hlen; exact Hlen).
  rewrite Hrep in Hode.
  destruct Hm as (H1 & H2 & H3 & _).
  destruct (model_class.a self) as [a0 |] eqn:Ha; [| contradiction].
  destruct (model_class.Raem self) as [r1 |] eqn:Hr1; [| contradiction].
  destruct (model_class.Rcem self) as [r2 |] eqn:Hr2; [| contradiction].
  exists self, (solved_object self a0 r1 r2 (repeat (c, c) (Z.to_nat intervals))).
  split; [assumption |].
  split.
  { apply solve_system_returns; try assumption. rewrite <- Hrep. discriminate. }
  unfold solved_object.
  cbn [model_class.with_solution model_class.J model_class.pd_avg
       model_class.power model_class.x model_class.E].
  rewrite !map_repeat. cbn [fst snd].
  rewrite emf_profile_equal_concentrations by lra.
  assert (HJ : J_profile self (repeat 0 (Z.to_nat intervals))
                 (Rcell_profile self r1 r2 (repeat c (Z.to_nat intervals))
                    (repeat c (Z.to_nat intervals)))
               = repeat 0 (Z.to_nat intervals))
    by (apply J_profile_at_rest; reflexivity).
  assert (Hzero : forall xs', simps (repeat 0 (Z.to_nat intervals)) xs' = 0).
  { intros xs'.
    replace (repeat 0 (Z.to_nat intervals))
      with (map (Rmult 0) (repeat 0 (Z.to_nat intervals)))
      by (rewrite map_repeat; f_equal; ring).
    rewrite Hh. ring. }
  split; [rewrite HJ; reflexivity |].
  split; [unfold coFlow_NaCl_outputs.current; rewrite Hzero; ring |].
  split; [reflexivity |].
  split; [unfold coFlow_NaCl_outputs.E_average; rewrite Hzero;
          unfold Rdiv; ring |].
  rewrite Pd_profile_is_load_times_J, HJ, Hh, Hzero.
  split; f_equal; unfold Rdiv; ring.
Qed.

Lemma no_gradient_reference_run :
  exists self self',
    model_class.__init__ 22 22 0.22 0.22 100E-6 "Fujifilm CEM/AEM type 10"
      0 512 512 100 = Ok self
    /\ model_class.solve_system (scipy := reference_scipy) self = Ok self'
    /\ model_class.J self' = Some (repeat 0 100)
    /\ model_class.pd_avg self' = Some 0
    /\ model_class.power self' = Some 0.
Proof.
  assert (Hv : valid_configuration 22 22 0.22 0.22 100E-6
                 "Fujifilm CEM/AEM type 10" 100).
  { unfold valid_configuration, known_membranes.
    repeat split; try lra; try lia. right; reflexivity. }
  destruct (no_gradient_no_power (laws := reference_scipy_laws)
              22 22 0.22 0.22 100E-6 "Fujifilm CEM/AEM type 10" 512 100
              simpson_homogeneous Hv ltac:(lra))
    as (self & self' & Hinit & Hsolve & HJ & _ & _ & _ & Hpd & HP).
  exists self, self'. repeat split; assumption.
Defined.

(** ** Bounds on the correlation *)

Lemma py_pow_nonneg (x y : R) : 0 <= py_pow x y.
Proof.
  unfold py_pow. destruct (Rlt_dec 0 x).
  - unfold Rpower. left. apply exp_pos.
  - destruct (Req_dec_T y 0); lra.
Qed.

(** X24. For salt parameters in the domain of the correlation with a
    non-negative charge product and a non-negative [S], the osmotic
    coefficient never falls below [1 - zplus * zmin * Aphi / b],
    whatever the ionic strength [I >= 0]. *)
Theorem osmotic_coefficient_lower_bound (s : TCPC.Salt) (I : R) :
  valid_salt s -> 0 <= TCPC.zplus s * TCPC.zmin s -> 0 <= TCPC.S s ->
  0 <= I ->
  1 - TCPC.zplus s * TCPC.zmin s * 0.392 / TCPC.b s <= TCPC.osmo s I.
Proof.
  intros (Hb & Hn & Hv) Hz HS _. unfold TCPC.osmo, TCPC.Aphi, TCPC.T.
  pose proof (py_pow_nonneg I 0.5) as Hp.
  pose proof (py_pow_nonneg I (2 * TCPC.n s)) as Hq.
  set (p := py_pow I 0.5) in *. set (q := py_pow I (2 * TCPC.n s)) in *.
  set (zz := TCPC.zplus s * TCPC.zmin s) in *.
  assert (Hden : 0 < 1 + TCPC.b s * p) by nra.
  assert (Hfrac : p / (1 + TCPC.b s * p) <= 1 / TCPC.b s).
  { assert (H : 1 / TCPC.b s - p / (1 + TCPC.b s * p)
                = 1 / (TCPC.b s * (1 + TCPC.b s * p))) by (field; lra).
    assert (0 < 1 / (TCPC.b s * (1 + TCPC.b s * p))).
    { apply Rdiv_lt_0_compat; [lra |]. apply Rmult_lt_0_compat; assumption. }
    lra. }
  assert (Hsolv : 0 <= TCPC.S s / (298.15 * (TCPC.vplus s + TCPC.vmin s))
                       * (2 * TCPC.n s / (2 * TCPC.n s + 1)) * q).
  { apply Rmult_le_pos; [apply Rmult_le_pos |]; try assumption.
    - apply div_nonneg; [assumption |]. apply Rmult_lt_0_compat; lra.
    - apply div_nonneg; lra. }
  assert (Hlr : zz * 0.392 * (p / (1 + TCPC.b s * p))
                <= zz * 0.392 / TCPC.b s).
  { replace (zz * 0.392 / TCPC.b s) with (zz * 0.392 * (1 / TCPC.b s))
      by (field; lra).
    apply Rmult_le_compat_l; [| assumption].
    apply Rmult_le_pos; [assumption | lra]. }
  lra.
Qed.

Lemma osmotic_coefficient_of_NaCl :
  1 - 1 * 1 * 0.392 / 3.0210 <= TCPC.osmo exergy_TCPC.NaCl 0.5.
Proof.
  apply (osmotic_coefficient_lower_bound exergy_TCPC.NaCl 0.5).
  - exact NaCl_valid.
  - simpl. lra.
  - simpl. lra.
  - lra.
Defined.

(** X25. For salt parameters in the domain of the correlation with a
    non-negative charge product and a non-negative [S], and an ionic
    strength [I >= 0], the activity coefficient lies between its
    long-range factor, which is at most 1, and its solvation factor,
    which is at least 1. *)
Theorem activity_coefficient_bounds (s : TCPC.Salt) (I : R) :
  valid_salt s -> 0 <= TCPC.zplus s * TCPC.zmin s -> 0 <= TCPC.S s ->
  0 <= I ->
  let p := py_pow I 0.5 in
  let long_range :=
    exp (TCPC.zplus s * TCPC.zmin s
         * (- 0.392 * (p / (1 + TCPC.b s * p)
                       + 2 / TCPC.b s * ln (1 + TCPC.b s * p)))) in
  let solvation :=
    exp (TCPC.S s / 298.15 * py_pow I (2 * TCPC.n s)
         / (TCPC.vplus s + TCPC.vmin s)) in
  long_range <= TCPC.TCPC s I <= solvation
  /\ long_range <= 1 <= solvation.
Proof.
  intros (Hb & Hn & Hv) Hz HS _ p long_range solvation.
  pose proof (py_pow_nonneg I 0.5) as Hp. fold p in Hp.
  pose proof (py_pow_nonneg I (2 * TCPC.n s)) as Hq.
  set (q := py_pow I (2 * TCPC.n s)) in *.
  set (zz := TCPC.zplus s * TCPC.zmin s) in *.
  assert (Hden : 0 < 1 + TCPC.b s * p) by nra.
  assert (Hln : 0 <= ln (1 + TCPC.b s * p)).
  { rewrite <- ln_1. destruct (Req_dec_T (TCPC.b s * p) 0) as [H0 | H0].
    - rewrite H0, Rplus_0_r. lra.
    - left. apply ln_increasing; [lra |]. nra. }
  assert (Hf : zz * (- 0.392 * (p / (1 + TCPC.b s * p)
                                + 2 / TCPC.b s * ln (1 + TCPC.b s * p))) <= 0).
  { assert (0 <= p / (1 + TCPC.b s * p)) by (apply div_nonneg; assumption).
    assert (0 <= 2 / TCPC.b s * ln (1 + TCPC.b s * p)).
    { apply Rmult_le_pos; [apply div_nonneg; lra | assumption]. }
    set (u := p / (1 + TCPC.b s * p)) in *.
    set (v := 2 / TCPC.b s * ln (1 + TCPC.b s * p)) in *.
    nra. }
  assert (Hg : 0 <= TCPC.S s / 298.15 * q / (TCPC.vplus s + TCPC.vmin s)).
  { apply div_nonneg; [| assumption].
    apply Rmult_le_pos; [apply div_nonneg; lra | assumption]. }
  assert (Hmono : forall u v, u <= v -> exp u <= exp v).
  { intros u v [H | ->]; [left; apply exp_increasing; assumption | right; reflexivity]. }
  unfold long_range, solvation, TCPC.TCPC, TCPC.Aphi, TCPC.T.
  fold p. fold q. fold zz.
  set (f := zz * (- 0.392 * (p / (1 + TCPC.b s * p)
                             + 2 / TCPC.b s * ln (1 + TCPC.b s * p)))) in *.
  set (g := TCPC.S s / 298.15 * q / (TCPC.vplus s + TCPC.vmin s)) in *.
  assert (Hsame : zz * (- (0.392) * (p / (1 + TCPC.b s * p)
                                     + 2 / TCPC.b s * ln (1 + TCPC.b s * p)))
                  = f) by (unfold f; f_equal; f_equal; lra).
  rewrite Hsame.
  repeat split.
  - apply Hmono. lra.
  - apply Hmono. lra.
  - rewrite <- exp_0. apply Hmono. assumption.
  - rewrite <- exp_0. apply Hmono. assumption.
Qed.

Lemma activity_coefficient_of_NaCl :
  TCPC.TCPC exergy_TCPC.NaCl 0.5
  <= exp (36.1573 / 298.15 * py_pow 0.5 (2 * 0.8998) / (1 + 1)).
Proof.
  destruct (activity_coefficient_bounds exergy_TCPC.NaCl 0.5 NaCl_valid)
    as ((_ & Hupper) & _); simpl; try lra.
  exact Hupper.
Defined.
